(** * System health checker: classification, aggregation and export

    A shallow embedding of [scripts/python/system_health_checker.py]:
    the Python values the checker stores in [self.health_data], the
    exceptions it can raise, the threshold classifier [_get_status],
    the per-subsystem collectors, the aggregation [get_overall_health],
    the collection pass [collect_all_metrics] and the JSON export
    [export_to_json].

    Conventions of the embedding.
    - A Python [float] holding a measurement is the rational number it
      denotes ([Q]); byte and packet counters are [Z]. Dividing a counter
      by a power of 1024 keeps the 53 significant bits a float has;
      [round(x, 2)] is the decimal with two places nearest to [x], ties
      to the even one, and stands for the float nearest to it, which is
      what Python returns. NaN and the infinities are left out.
    - A Python [dict] is an association list in insertion order, which
      is what [OrderedDict] and the built-in [dict] both guarantee.
    - A call that may raise returns a [result]; the checker's methods
      that mutate [self] are state-passing functions. *)

From Stdlib Require Import ZArith QArith Qround List String Ascii Bool Lia.
From Stdlib Require Import DecimalString Lqa.
Import ListNotations.

Set Warnings "-register-all".

Local Open Scope nat_scope.
Local Open Scope string_scope.
Local Open Scope list_scope.

(** ** Exceptions and fallible computations *)

Inductive exn : Type :=
| KeyError (key : string)
| TypeError
| AttributeError
| PermissionError
| OSError.

(** The name of the Python class of an exception. *)
Definition exn_class (e : exn) : string :=
  match e with
  | KeyError _ => "KeyError"
  | TypeError => "TypeError"
  | AttributeError => "AttributeError"
  | PermissionError => "PermissionError"
  | OSError => "OSError"
  end.

Inductive result (A : Type) : Type :=
| Ok (a : A)
| Raise (e : exn).
Arguments Ok {A} a.
Arguments Raise {A} e.

Definition bind {A B : Type} (r : result A) (k : A -> result B) : result B :=
  match r with
  | Ok a => k a
  | Raise e => Raise e
  end.

Declare Scope py_scope.
Delimit Scope py_scope with py.
Notation "'do' x <- c ; k" := (bind c (fun x => k))
  (at level 10, x name, c at level 100, k at level 200) : py_scope.
Local Open Scope py_scope.

(** [mapM f l] runs [f] on the items of [l] from left to right and stops
    at the first exception, as a list comprehension does. *)
Fixpoint mapM {A B : Type} (f : A -> result B) (l : list A) : result (list B) :=
  match l with
  | [] => Ok []
  | a :: l' => do b <- f a; do bs <- mapM f l'; Ok (b :: bs)
  end.

(** ** Status levels *)

Inductive StatusLevel : Type := HEALTHY | WARNING | CRITICAL.

(** The string the program uses for a level. *)
Definition status_name (s : StatusLevel) : string :=
  match s with
  | HEALTHY => "HEALTHY"
  | WARNING => "WARNING"
  | CRITICAL => "CRITICAL"
  end.

Definition status_rank (s : StatusLevel) : nat :=
  match s with
  | HEALTHY => 0
  | WARNING => 1
  | CRITICAL => 2
  end.

(** The severity order HEALTHY < WARNING < CRITICAL. *)
Definition status_le (a b : StatusLevel) : Prop := status_rank a <= status_rank b.

Definition status_leb (a b : StatusLevel) : bool := Nat.leb (status_rank a) (status_rank b).

Definition status_max (a b : StatusLevel) : StatusLevel :=
  if status_leb a b then b else a.

(** The worst level of a list; [HEALTHY], the least level, for no item. *)
Definition worst_of (l : list StatusLevel) : StatusLevel :=
  fold_right status_max HEALTHY l.

Definition status_eq_dec (a b : StatusLevel) : {a = b} + {a <> b}.
Proof. decide equality. Defined.

(** ** The threshold classifier *)

Definition Qltb (x y : Q) : bool := negb (Qle_bool y x).

(** [_get_status(self, percent)], lines 126-133. The cut-offs 60 and 80
    are literals of the method; it takes no threshold argument and reads
    no attribute of [self]. *)
Definition _get_status (percent : Q) : string :=
  if Qltb percent 60 then "HEALTHY"
  else if Qltb percent 80 then "WARNING"
  else "CRITICAL".

(** The level a percentage is classified into. *)
Definition classify (p : Q) : StatusLevel :=
  if Qltb p 60 then HEALTHY else if Qltb p 80 then WARNING else CRITICAL.

(** ** Python values

    The values that reach [self.health_data]: [None], integers, floats,
    strings, lists and string-keyed dictionaries. *)

Inductive value : Type :=
| VNone
| VInt (z : Z)
| VFloat (q : Q)
| VStr (s : string)
| VList (items : list value)
| VDict (entries : list (string * value)).

(** A dictionary with string keys, in insertion order, keys distinct. *)
Definition dict : Type := list (string * value).

Fixpoint dict_get (d : dict) (k : string) : option value :=
  match d with
  | [] => None
  | (k', v) :: d' => if String.eqb k' k then Some v else dict_get d' k
  end.

(** [d[k] = v]: a known key keeps its position, a new key goes last. *)
Fixpoint dict_set (d : dict) (k : string) (v : value) : dict :=
  match d with
  | [] => [(k, v)]
  | (k', v') :: d' =>
      if String.eqb k' k then (k', v) :: d' else (k', v') :: dict_set d' k v
  end.

Definition keys (d : dict) : list string := map fst d.

(** [o[k]] for a string [k]: a dictionary looks the key up, every other
    value of the model refuses a string subscript. *)
Definition subscript (o : value) (k : string) : result value :=
  match o with
  | VDict d =>
      match dict_get d k with
      | Some v => Ok v
      | None => Raise (KeyError k)
      end
  | _ => Raise TypeError
  end.

(** The items a [for] loop over [o] visits. *)
Definition iterate (o : value) : result (list value) :=
  match o with
  | VList items => Ok items
  | VDict d => Ok (map (fun kv => VStr (fst kv)) d)
  | VStr s => Ok (map (fun c => VStr (String c EmptyString)) (list_ascii_of_string s))
  | _ => Raise TypeError
  end.

(** [s in l] for a string literal [s]: some item equals the string. *)
Definition str_in (s : string) (l : list value) : bool :=
  existsb (fun v => match v with VStr t => String.eqb s t | _ => false end) l.

(** ** Arithmetic of the collectors *)

(** Nearest integer, ties to even. *)
Definition round_half_even (q : Q) : Z :=
  let f := Qfloor q in
  let r := (q - inject_Z f)%Q in
  if Qltb r (1 # 2) then f
  else if Qltb (1 # 2) r then (f + 1)%Z
  else if Z.even f then f else (f + 1)%Z.

(** [round(x, 2)]: the decimal with two places nearest to the number [x]
    denotes; it stands for the float nearest to it. *)
Definition round2 (q : Q) : Q := (inject_Z (round_half_even (q * 100)) / 100)%Q.

(** The integer nearest to [n] that has at most 53 significant bits, ties
    to the even significand: what a byte counter keeps of its value when
    [/] turns it into a float. Counters below [2 ^ 53] are kept as they
    are. *)
Definition round53 (n : Z) : Z :=
  let a := Z.abs n in
  let shift := (Z.log2 a + 1 - 53)%Z in
  if (shift <=? 0)%Z then n
  else
    let unit := (2 ^ shift)%Z in
    let q := (a / unit)%Z in
    let r := (a mod unit)%Z in
    let half := (2 ^ (shift - 1))%Z in
    let q' := if (r <? half)%Z then q
              else if (half <? r)%Z then (q + 1)%Z
              else if Z.even q then q else (q + 1)%Z in
    (Z.sgn n * (q' * unit))%Z.

(** [n / (1024**k)] for an [int] [n]: the float nearest to the quotient.
    The divisor is a power of two, so this is the quotient of the
    rounded counter (counters stay far below the greatest float). *)
Definition true_div (n : Z) (d : Z) : Q := (inject_Z (round53 n) / inject_Z d)%Q.

(** [round(n / (1024**3), 2)] and [round(n / (1024**2), 2)]. *)
Definition to_gb (n : Z) : Q := round2 (true_div n (1024 ^ 3)).
Definition to_mb (n : Z) : Q := round2 (true_div n (1024 ^ 2)).

(** ** The metrics provider

    What [platform] and [psutil] answer during one collection pass. Each
    call site of the source has a field of its own, since two calls of
    [psutil.cpu_percent] or [psutil.cpu_freq] need not agree. *)

Record scpufreq : Type := { freq_current : Q; freq_min : Q; freq_max : Q }.

Record svmem : Type :=
  { vm_total : Z; vm_available : Z; vm_used : Z; vm_percent : Q }.

Record sswap : Type := { sw_total : Z; sw_used : Z; sw_percent : Q }.

Record sdiskpart : Type := { device : string; mountpoint : string; fstype : string }.

Record sdiskusage : Type :=
  { du_total : Z; du_used : Z; du_free : Z; du_percent : Q }.

Record snetio : Type :=
  { bytes_sent : Z; bytes_recv : Z; packets_sent : Z; packets_recv : Z;
    errin : Z; errout : Z }.

(** [proc.info] of one process; an attribute psutil could not read is [None]. *)
Record procinfo : Type :=
  { pid : Z; name : option string;
    cpu_percent : option Q; memory_percent : option Q }.

Record Provider : Type :=
  { node : string;
    system : string;
    version : string;
    machine : string;
    processor : string;
    python_version : string;
    cpu_percent_percpu : list Q;          (* line 35 *)
    cpu_count_physical : option Z;        (* line 37 *)
    cpu_count_logical : option Z;         (* line 38 *)
    cpu_percent_total : Q;                (* line 39 *)
    cpu_freq_tested : option scpufreq;    (* line 41, the condition *)
    cpu_freq_read : option scpufreq;      (* line 41, the branch *)
    cpu_percent_status : Q;               (* line 42 *)
    virtual_memory : svmem;
    swap_memory : sswap;
    (* each partition with what [psutil.disk_usage] does on its mount point *)
    disk_partitions : list (sdiskpart * result sdiskusage);
    (* [psutil.net_io_counters()] is [None] on a host without interfaces *)
    net_io_counters : option snetio;
    net_if_addrs : list string;
    pids : list Z;
    process_iter : list procinfo;
    (* whether [open(path, "w")] succeeds *)
    can_write : string -> bool }.

(** ** The collectors *)

Definition opt_int (o : option Z) : value :=
  match o with Some z => VInt z | None => VNone end.

Definition opt_float (o : option Q) : value :=
  match o with Some q => VFloat q | None => VNone end.

Definition opt_str (o : option string) : value :=
  match o with Some s => VStr s | None => VNone end.

(** [get_system_info], lines 22-31. *)
Definition get_system_info (env : Provider) : value :=
  VDict [ ("hostname", VStr (node env));
          ("platform", VStr (system env));
          ("platform_version", VStr (version env));
          ("architecture", VStr (machine env));
          ("processor", VStr (processor env));
          ("python_version", VStr (python_version env)) ].

Definition _asdict (f : scpufreq) : value :=
  VDict [ ("current", VFloat (freq_current f));
          ("min", VFloat (freq_min f));
          ("max", VFloat (freq_max f)) ].

(** [psutil.cpu_freq()._asdict() if psutil.cpu_freq() else None]: the
    condition is one call, the branch another. *)
Definition cpu_freq_entry (env : Provider) : result value :=
  match cpu_freq_tested env with
  | Some _ =>
      match cpu_freq_read env with
      | Some f => Ok (_asdict f)
      | None => Raise AttributeError
      end
  | None => Ok VNone
  end.

(** [get_cpu_info], lines 33-43. *)
Definition get_cpu_info (env : Provider) : result value :=
  let cpu_percent := cpu_percent_percpu env in
  do freq <- cpu_freq_entry env;
  Ok (VDict [ ("cpu_count", opt_int (cpu_count_physical env));
              ("cpu_count_logical", opt_int (cpu_count_logical env));
              ("cpu_percent_total", VFloat (cpu_percent_total env));
              ("cpu_percent_per_core", VList (map VFloat cpu_percent));
              ("cpu_freq", freq);
              ("status", VStr (_get_status (cpu_percent_status env))) ]).

(** [get_memory_info], lines 45-59. *)
Definition get_memory_info (env : Provider) : value :=
  let memory := virtual_memory env in
  let swap := swap_memory env in
  VDict [ ("total_gb", VFloat (to_gb (vm_total memory)));
          ("available_gb", VFloat (to_gb (vm_available memory)));
          ("used_gb", VFloat (to_gb (vm_used memory)));
          ("percent_used", VFloat (vm_percent memory));
          ("swap_total_gb", VFloat (to_gb (sw_total swap)));
          ("swap_used_gb", VFloat (to_gb (sw_used swap)));
          ("swap_percent", VFloat (sw_percent swap));
          ("status", VStr (_get_status (vm_percent memory))) ].

(** The dictionary appended for a partition whose usage was read. *)
Definition disk_entry (partition : sdiskpart) (usage : sdiskusage) : value :=
  VDict [ ("device", VStr (device partition));
          ("mountpoint", VStr (mountpoint partition));
          ("fstype", VStr (fstype partition));
          ("total_gb", VFloat (to_gb (du_total usage)));
          ("used_gb", VFloat (to_gb (du_used usage)));
          ("free_gb", VFloat (to_gb (du_free usage)));
          ("percent_used", VFloat (du_percent usage));
          ("status", VStr (_get_status (du_percent usage))) ].

(** The loop of [get_disk_info], lines 66-82: [disk_data] is the list
    built so far. A [PermissionError] goes to the next partition and
    leaves [disk_data] as it is; any other exception leaves the loop. *)
Fixpoint disk_loop (partitions : list (sdiskpart * result sdiskusage))
    (disk_data : list value) : result (list value) :=
  match partitions with
  | [] => Ok disk_data
  | (partition, Ok usage) :: rest =>
      disk_loop rest (disk_data ++ [disk_entry partition usage])
  | (_, Raise PermissionError) :: rest => disk_loop rest disk_data
  | (_, Raise e) :: _ => Raise e
  end.

(** [get_disk_info], lines 61-84. *)
Definition get_disk_info (env : Provider) : result (list value) :=
  disk_loop (disk_partitions env) [].

(** [get_network_info], lines 86-99. Without counters, [net_io] is
    [None] and the first attribute read of line 92 raises. *)
Definition get_network_info (env : Provider) : result value :=
  let interfaces := net_if_addrs env in
  match net_io_counters env with
  | None => Raise AttributeError
  | Some net_io =>
      Ok (VDict [ ("bytes_sent_mb", VFloat (to_mb (bytes_sent net_io)));
                  ("bytes_recv_mb", VFloat (to_mb (bytes_recv net_io)));
                  ("packets_sent", VInt (packets_sent net_io));
                  ("packets_recv", VInt (packets_recv net_io));
                  ("errors_in", VInt (errin net_io));
                  ("errors_out", VInt (errout net_io));
                  ("interface_count", VInt (Z.of_nat (List.length interfaces))) ])
  end.

(** The sort key [p.info["cpu_percent"] or 0]. *)
Definition sort_key (p : procinfo) : Q :=
  match cpu_percent p with
  | Some q => q
  | None => 0%Q
  end.

(** [sorted(..., reverse=True)]: decreasing keys, and items of equal key
    in the order they came. *)
Fixpoint insert_desc (p : procinfo) (l : list procinfo) : list procinfo :=
  match l with
  | [] => [p]
  | p' :: l' =>
      if Qltb (sort_key p) (sort_key p') then p' :: insert_desc p l'
      else p :: p' :: l'
  end.

Definition sorted_desc (l : list procinfo) : list procinfo :=
  fold_right insert_desc [] l.

(** The dictionary built for one process; [round(None, 2)] is a
    [TypeError], which the [except] clause of the loop does not name. *)
Definition process_entry (proc : procinfo) : result value :=
  match memory_percent proc with
  | Some m =>
      Ok (VDict [ ("pid", VInt (pid proc));
                  ("name", opt_str (name proc));
                  ("cpu_percent", opt_float (cpu_percent proc));
                  ("memory_percent", VFloat (round2 m)) ])
  | None => Raise TypeError
  end.

(** [get_process_info], lines 101-124. *)
Definition get_process_info (env : Provider) : result value :=
  let process_count := Z.of_nat (List.length (pids env)) in
  do processes <- mapM process_entry (firstn 5 (sorted_desc (process_iter env)));
  Ok (VDict [ ("total_processes", VInt process_count);
              ("top_cpu_processes", VList processes) ]).

(** ** Aggregation *)

(** Lines 141-146: the worst status among the partitions' statuses,
    starting from ["HEALTHY"]. *)
Definition worst_disk_status (disk_statuses : list value) : string :=
  if str_in "CRITICAL" disk_statuses then "CRITICAL"
  else if str_in "WARNING" disk_statuses then "WARNING"
  else "HEALTHY".

(** Line 137: [self.health_data["cpu"]["status"]]. *)
Definition cpu_status (health_data : dict) : result value :=
  do cpu <- subscript (VDict health_data) "cpu";
  subscript cpu "status".

(** Line 138: [self.health_data["memory"]["status"]]. *)
Definition memory_status (health_data : dict) : result value :=
  do memory <- subscript (VDict health_data) "memory";
  subscript memory "status".

(** Line 140: [[disk["status"] for disk in self.health_data["disk"]]]. *)
Definition disk_statuses (health_data : dict) : result (list value) :=
  do disks <- subscript (VDict health_data) "disk";
  do items <- iterate disks;
  mapM (fun disk => subscript disk "status") items.

(** Lines 137-148: the list [statuses] that the final test reads. *)
Definition statuses (health_data : dict) : result (list value) :=
  do cpu_status <- cpu_status health_data;
  do memory_status <- memory_status health_data;
  do disk_statuses <- disk_statuses health_data;
  Ok [cpu_status; memory_status; VStr (worst_disk_status disk_statuses)].

(** [get_overall_health], lines 135-155. *)
Definition get_overall_health (health_data : dict) : result string :=
  do statuses <- statuses health_data;
  if str_in "CRITICAL" statuses then Ok "CRITICAL"
  else if str_in "WARNING" statuses then Ok "WARNING"
  else Ok "HEALTHY".

(** ** The checker and its collection pass *)

(** The object: [self.timestamp], kept as the text [isoformat()] gives
    (nothing else reads it), and [self.health_data]. *)
Record SystemHealthChecker : Type :=
  { timestamp : string; health_data : dict }.

(** [__init__], lines 18-20, at the instant whose ISO text is [now]. *)
Definition init (now : string) : SystemHealthChecker :=
  {| timestamp := now; health_data := [] |}.

(** One run: the checker, what was printed, and the files written. *)
Record Run : Type :=
  { self : SystemHealthChecker;
    stdout : list string;
    files : string -> option string }.

(** A method: it may raise, and what it did before raising stays done. *)
Definition M (A : Type) : Type := Run -> result A * Run.

Definition ret {A : Type} (a : A) : M A := fun r => (Ok a, r).

Definition bindM {A B : Type} (m : M A) (k : A -> M B) : M B :=
  fun r =>
    match m r with
    | (Ok a, r') => k a r'
    | (Raise e, r') => (Raise e, r')
    end.

Definition lift {A : Type} (x : result A) : M A := fun r => (x, r).

Notation "x <- m ;; k" := (bindM m (fun x => k))
  (at level 61, m at next level, right associativity) : py_scope.
Notation "m ;; k" := (bindM m (fun _ => k))
  (at level 61, right associativity) : py_scope.

Definition print (line : string) : M unit :=
  fun r => (Ok tt, {| self := self r; stdout := stdout r ++ [line]; files := files r |}).

(** [self.health_data[key] = v]. *)
Definition store (key : string) (v : value) : M unit :=
  fun r =>
    (Ok tt,
     {| self := {| timestamp := timestamp (self r);
                   health_data := dict_set (health_data (self r)) key v |};
        stdout := stdout r; files := files r |}).

Definition load : M dict := fun r => (Ok (health_data (self r)), r).

Definition isoformat : M string := fun r => (Ok (timestamp (self r)), r).

Definition newline : string := String (ascii_of_nat 10) EmptyString.

(** [collect_all_metrics], lines 157-170. *)
Definition collect_all_metrics (env : Provider) : M dict :=
  print ("Collecting system health metrics..." ++ newline) ;;
  now <- isoformat ;;
  store "timestamp" (VStr now) ;;
  store "system" (get_system_info env) ;;
  cpu <- lift (get_cpu_info env) ;;
  store "cpu" cpu ;;
  store "memory" (get_memory_info env) ;;
  disk <- lift (get_disk_info env) ;;
  store "disk" (VList disk) ;;
  network <- lift (get_network_info env) ;;
  store "network" network ;;
  processes <- lift (get_process_info env) ;;
  store "processes" processes ;;
  data <- load ;;
  overall <- lift (get_overall_health data) ;;
  store "overall_health" (VStr overall) ;;
  load.

(** ** The JSON text of a value

    [json.dump(obj, f, indent=2)] with the encoder's defaults: items
    separated by a comma and a line break, a key and its value by a colon
    and a space, two spaces of indentation per level, dictionary entries
    in the dictionary's own order ([sort_keys] is off), and every
    character outside printable ASCII escaped. A string is read as the
    sequence of its code points, one per character. *)

Definition quote : string := String (ascii_of_nat 34) EmptyString.
Definition backslash : string := String (ascii_of_nat 92) EmptyString.

Definition hex_digit (n : nat) : string :=
  match get n "0123456789abcdef" with
  | Some c => String c EmptyString
  | None => EmptyString
  end.

(** What the encoder writes for one character of a string. *)
Definition escape_char (c : ascii) : string :=
  let n := nat_of_ascii c in
  if Nat.eqb n 34 then backslash ++ quote
  else if Nat.eqb n 92 then backslash ++ backslash
  else if Nat.eqb n 8 then backslash ++ "b"
  else if Nat.eqb n 12 then backslash ++ "f"
  else if Nat.eqb n 10 then backslash ++ "n"
  else if Nat.eqb n 13 then backslash ++ "r"
  else if Nat.eqb n 9 then backslash ++ "t"
  else if Nat.leb 32 n && Nat.leb n 126 then String c EmptyString
  else backslash ++ "u00" ++ hex_digit (n / 16) ++ hex_digit (n mod 16).

Fixpoint escape (s : string) : string :=
  match s with
  | EmptyString => EmptyString
  | String c s' => escape_char c ++ escape s'
  end.

Definition encode_str (s : string) : string := quote ++ escape s ++ quote.

(** [int.__repr__]. *)
Definition int_repr (z : Z) : string := NilZero.string_of_int (Z.to_int z).

Fixpoint spaces (n : nat) : string :=
  match n with
  | O => EmptyString
  | S n' => "  " ++ spaces n'
  end.

(** A line break followed by the indentation of a nesting level. *)
Definition newline_indent (level : nat) : string := newline ++ spaces level.

Fixpoint join (sep : string) (parts : list string) : string :=
  match parts with
  | [] => EmptyString
  | [p] => p
  | p :: rest => p ++ sep ++ join sep rest
  end.

Section Encoder.

(** [float.__repr__], the shortest decimal text that reads back as the
    same float; it belongs to the interpreter, not to the checker. *)
Variable float_repr : Q -> string.

Fixpoint encode (level : nat) (v : value) {struct v} : string :=
  match v with
  | VNone => "null"
  | VInt z => int_repr z
  | VFloat q => float_repr q
  | VStr s => encode_str s
  | VList [] => "[]"
  | VList items =>
      "[" ++ newline_indent (S level)
          ++ join ("," ++ newline_indent (S level)) (map (encode (S level)) items)
          ++ newline_indent level ++ "]"
  | VDict [] => "{}"
  | VDict entries =>
      "{" ++ newline_indent (S level)
          ++ join ("," ++ newline_indent (S level))
               (map (fun '(k, x) => (encode_str k ++ ": " ++ encode (S level) x)%string)
                    entries)
          ++ newline_indent level ++ "}"
  end.

(** The text of one entry of a dictionary at nesting level [level]. *)
Definition member (level : nat) (k : string) (x : value) : string :=
  encode_str k ++ ": " ++ encode level x.

(** [json.dump(self.health_data, f, indent=2)]. *)
Definition dump (health_data : dict) : string := encode 0 (VDict health_data).

Definition write_file (path text : string) : M unit :=
  fun r =>
    (Ok tt,
     {| self := self r; stdout := stdout r;
        files := fun p => if String.eqb p path then Some text else files r p |}).

(** [export_to_json], lines 236-240. Opening the file may fail; then
    nothing is written and nothing is printed. *)
Definition export_to_json (env : Provider) (filename : string) : M unit :=
  if can_write env filename then
    data <- load ;;
    write_file filename (dump data) ;;
    print (newline ++ "Health report exported to: " ++ filename)
  else lift (Raise OSError).

Definition default_filename : string := "system_health_report.json".

End Encoder.

(** ** Sample data

    A float text for the examples: it writes a number with one or two
    decimals, as [float.__repr__] does for the numbers the examples use
    (at most two decimals, below 10^16 in absolute value). *)

Definition two_places (q : Q) : string :=
  let n := round_half_even (q * 100) in
  let a := Z.abs n in
  let sign := if (n <? 0)%Z then "-" else "" in
  let tenths := int_repr ((a mod 100) / 10) in
  let hundredths := int_repr (a mod 10) in
  sign ++ int_repr (a / 100) ++ "." ++ tenths
       ++ (if (a mod 10 =? 0)%Z then "" else hundredths).

Definition GiB : Z := 1024 ^ 3.

Definition usage_at (percent : Q) : sdiskusage :=
  {| du_total := 100 * GiB; du_used := 40 * GiB; du_free := 60 * GiB;
     du_percent := percent |}.

Definition part (dev mnt : string) : sdiskpart :=
  {| device := dev; mountpoint := mnt; fstype := "ext4" |}.

(** A host with the given cpu and memory percentages and partitions. *)
Definition host (cpu mem : Q) (parts : list (sdiskpart * result sdiskusage)) : Provider :=
  {| node := "web01";
     system := "Linux";
     version := "#1 SMP";
     machine := "x86_64";
     processor := "x86_64";
     python_version := "3.11.4";
     cpu_percent_percpu := [cpu; cpu];
     cpu_count_physical := Some 2%Z;
     cpu_count_logical := Some 4%Z;
     cpu_percent_total := cpu;
     cpu_freq_tested := None;
     cpu_freq_read := None;
     cpu_percent_status := cpu;
     virtual_memory :=
       {| vm_total := 8 * GiB; vm_available := 4 * GiB; vm_used := 4 * GiB;
          vm_percent := mem |};
     swap_memory := {| sw_total := 0; sw_used := 0; sw_percent := 0 |};
     disk_partitions := parts;
     net_io_counters :=
       Some {| bytes_sent := 1048576; bytes_recv := 2097152; packets_sent := 10;
               packets_recv := 20; errin := 0; errout := 0 |};
     net_if_addrs := ["lo"; "eth0"];
     pids := [1%Z; 2%Z];
     process_iter :=
       [ {| pid := 1; name := Some "init"; cpu_percent := Some 0.5%Q;
            memory_percent := Some 0.25%Q |};
         {| pid := 2; name := Some "sshd"; cpu_percent := None;
            memory_percent := Some 1.5%Q |} ];
     can_write := fun _ => true |}.

(** A run that has just built its checker. *)
Definition fresh (now : string) : Run :=
  {| self := init now; stdout := []; files := fun _ => None |}.

(** Whether the string [s] occurs in [v], as a string or as a key. *)
Fixpoint mentions (s : string) (v : value) {struct v} : bool :=
  match v with
  | VStr t => String.eqb s t
  | VList items => existsb (mentions s) items
  | VDict entries => existsb (fun '(k, x) => String.eqb s k || mentions s x) entries
  | _ => false
  end.

(** The fields of the export, in the order [collect_all_metrics] stores them. *)
Definition export_order : list string :=
  [ "timestamp"; "system"; "cpu"; "memory"; "disk"; "network"; "processes";
    "overall_health" ].

(** The value that holds a level in [self.health_data]. *)
Definition status_value (s : StatusLevel) : value := VStr (status_name s).

(** The levels of the subsystem reports that carry a status and are not
    empty: cpu, memory, and the disk report when it has a partition, its
    level being the worst of its partitions. Network and process reports
    carry no status. *)
Definition report_levels (cpu memory : StatusLevel) (partitions : list StatusLevel)
  : list StatusLevel :=
  cpu :: memory ::
  match partitions with
  | [] => []
  | _ :: _ => [worst_of partitions]
  end.

(** The partitions whose usage was read, each with its usage. *)
Fixpoint readable (partitions : list (sdiskpart * result sdiskusage))
  : list (sdiskpart * sdiskusage) :=
  match partitions with
  | [] => []
  | (p, Ok u) :: rest => (p, u) :: readable rest
  | (_, Raise _) :: rest => readable rest
  end.

Definition entry_of (pu : sdiskpart * sdiskusage) : value :=
  disk_entry (fst pu) (snd pu).

Definition level_of (pu : sdiskpart * sdiskusage) : StatusLevel :=
  classify (du_percent (snd pu)).

(** Health data as the unit tests of the checker write it: a status for
    cpu and memory, a list of partition statuses for disk. *)
Definition status_only (cpu memory : string) (partitions : list string) : dict :=
  [ ("cpu", VDict [("status", VStr cpu)]);
    ("memory", VDict [("status", VStr memory)]);
    ("disk", VList (map (fun s => VDict [("status", VStr s)]) partitions)) ].

(** A host that differs from [host cpu mem parts] in its system
    information, network counters and process table only. *)
Definition other_host (cpu mem : Q) (parts : list (sdiskpart * result sdiskusage))
  : Provider :=
  let h := host cpu mem parts in
  {| node := "db02";
     system := "FreeBSD";
     version := "14.0";
     machine := "arm64";
     processor := "";
     python_version := "3.12.1";
     cpu_percent_percpu := cpu_percent_percpu h;
     cpu_count_physical := cpu_count_physical h;
     cpu_count_logical := cpu_count_logical h;
     cpu_percent_total := cpu_percent_total h;
     cpu_freq_tested := cpu_freq_tested h;
     cpu_freq_read := cpu_freq_read h;
     cpu_percent_status := cpu_percent_status h;
     virtual_memory := virtual_memory h;
     swap_memory := swap_memory h;
     disk_partitions := disk_partitions h;
     net_io_counters :=
       Some {| bytes_sent := 7; bytes_recv := 9; packets_sent := 1;
               packets_recv := 1; errin := 3; errout := 4 |};
     net_if_addrs := ["lo0"];
     pids := [1%Z];
     process_iter := [];
     can_write := can_write h |}.

(** The health data a pass leaves from a checker just built ([[]] when
    the pass raises). *)
Definition collected (env : Provider) (now : string) : dict :=
  match fst (collect_all_metrics env (fresh now)) with
  | Ok hd => hd
  | Raise _ => []
  end.

(** A partition that cannot be read. *)
Definition locked (dev mnt : string) : sdiskpart * result sdiskusage :=
  (part dev mnt, Raise PermissionError).

(** Health data whose keys are an initial part of the export order: the
    empty data of a new checker, and what a pass leaves, complete or cut
    short by an exception. *)
Definition in_order (d : dict) : Prop := exists n, keys d = firstn n export_order.

(** A partition together with the usage that is read for it. *)
Definition readable_part (pu : sdiskpart * sdiskusage) : sdiskpart * result sdiskusage :=
  (fst pu, Ok (snd pu)).

(** ** The console report and the program

    [print_report] (lines 172-234), [main] (lines 243-262) and the guard
    of the script (lines 265-271). Four functions of the interpreter
    are arguments of the model: [float.__repr__], the [repr] of a list
    or a dictionary, [str.title], and the text [str(e)] of an
    exception. An interrupt from the keyboard is not modelled. *)

(** [s * n]. *)
Fixpoint repeat_string (s : string) (n : nat) : string :=
  match n with
  | O => EmptyString
  | S n' => s ++ repeat_string s n'
  end.

(** [s.replace(a, b)] for one-character [a] and [b]. *)
Fixpoint replace_char (a b : ascii) (s : string) : string :=
  match s with
  | EmptyString => EmptyString
  | String c s' => String (if Ascii.eqb c a then b else c) (replace_char a b s')
  end.

(** [o.items()]: the entries of a dictionary; no other value of the
    model has the method. *)
Definition dict_items (o : value) : result (list (string * value)) :=
  match o with
  | VDict d => Ok d
  | _ => Raise AttributeError
  end.

(** A [for] loop whose body prints. *)
Fixpoint forM {A : Type} (l : list A) (body : A -> M unit) : M unit :=
  match l with
  | [] => ret tt
  | a :: l' => body a ;; forM l' body
  end.

(** [data[a]] and [data[a][b]], raising what the subscripts raise. *)
Definition field (data : dict) (a : string) : M value :=
  lift (subscript (VDict data) a).

Definition field2 (data : dict) (a b : string) : M value :=
  lift (do x <- subscript (VDict data) a; subscript x b).

(** [checker = SystemHealthChecker()]: a new checker takes the place of
    [self]. *)
Definition construct (now : string) : M unit :=
  fun r => (Ok tt, {| self := init now; stdout := stdout r; files := files r |}).

Section Report.

Variable float_repr : Q -> string.
Variable container_repr : value -> string.
Variable title : string -> string.
Variable exn_text : exn -> string.

(** [str(v)], which is what an f-string writes for [{v}]. *)
Definition str (v : value) : string :=
  match v with
  | VNone => "None"
  | VInt z => int_repr z
  | VFloat q => float_repr q
  | VStr s => s
  | VList _ => container_repr v
  | VDict _ => container_repr v
  end.

Definition equals_rule : string := repeat_string "=" 80.
Definition dash_rule : string := repeat_string "-" 80.

(** Lines 176-180. *)
Definition print_heading (data : dict) : M unit :=
  print equals_rule ;;
  stamp <- field data "timestamp" ;;
  print ("SYSTEM HEALTH REPORT - " ++ str stamp) ;;
  print equals_rule ;;
  overall <- field data "overall_health" ;;
  print (newline ++ "OVERALL HEALTH: " ++ str overall).

(** Lines 182-186. *)
Definition print_system (data : dict) : M unit :=
  print (newline ++ dash_rule) ;;
  print "SYSTEM INFORMATION" ;;
  print dash_rule ;;
  info <- field data "system" ;;
  entries <- lift (dict_items info) ;;
  forM entries (fun kv =>
    print ("  " ++ title (replace_char "_" " " (fst kv)) ++ ": " ++ str (snd kv))).

(** Lines 188-193. *)
Definition print_cpu (data : dict) : M unit :=
  print (newline ++ dash_rule) ;;
  status <- field2 data "cpu" "status" ;;
  print ("CPU - " ++ str status) ;;
  print dash_rule ;;
  physical <- field2 data "cpu" "cpu_count" ;;
  print ("  Physical Cores: " ++ str physical) ;;
  logical <- field2 data "cpu" "cpu_count_logical" ;;
  print ("  Logical Cores: " ++ str logical) ;;
  total <- field2 data "cpu" "cpu_percent_total" ;;
  print ("  Total Usage: " ++ str total ++ "%").

(** Lines 195-205. *)
Definition print_memory (data : dict) : M unit :=
  print (newline ++ dash_rule) ;;
  status <- field2 data "memory" "status" ;;
  print ("MEMORY - " ++ str status) ;;
  print dash_rule ;;
  total <- field2 data "memory" "total_gb" ;;
  print ("  Total: " ++ str total ++ " GB") ;;
  used <- field2 data "memory" "used_gb" ;;
  percent <- field2 data "memory" "percent_used" ;;
  print ("  Used: " ++ str used ++ " GB (" ++ str percent ++ "%)") ;;
  available <- field2 data "memory" "available_gb" ;;
  print ("  Available: " ++ str available ++ " GB") ;;
  swap_used <- field2 data "memory" "swap_used_gb" ;;
  swap_percent <- field2 data "memory" "swap_percent" ;;
  print ("  Swap Used: " ++ str swap_used ++ " GB (" ++ str swap_percent ++ "%)").

(** The body of the loop of lines 210-214. *)
Definition print_disk_entry (disk : value) : M unit :=
  mount <- lift (subscript disk "mountpoint") ;;
  dev <- lift (subscript disk "device") ;;
  status <- lift (subscript disk "status") ;;
  print ("  " ++ str mount ++ " (" ++ str dev ++ ") - " ++ str status) ;;
  total <- lift (subscript disk "total_gb") ;;
  used <- lift (subscript disk "used_gb") ;;
  percent <- lift (subscript disk "percent_used") ;;
  print ("    Total: " ++ str total ++ " GB | Used: " ++ str used
           ++ " GB (" ++ str percent ++ "%)").

(** Lines 207-214. *)
Definition print_disk (data : dict) : M unit :=
  print (newline ++ dash_rule) ;;
  print "DISK USAGE" ;;
  print dash_rule ;;
  disks <- field data "disk" ;;
  entries <- lift (iterate disks) ;;
  forM entries print_disk_entry.

(** Lines 216-224. *)
Definition print_network (data : dict) : M unit :=
  print (newline ++ dash_rule) ;;
  print "NETWORK" ;;
  print dash_rule ;;
  sent <- field2 data "network" "bytes_sent_mb" ;;
  print ("  Data Sent: " ++ str sent ++ " MB") ;;
  received <- field2 data "network" "bytes_recv_mb" ;;
  print ("  Data Received: " ++ str received ++ " MB") ;;
  packets_out <- field2 data "network" "packets_sent" ;;
  print ("  Packets Sent: " ++ str packets_out) ;;
  packets_in <- field2 data "network" "packets_recv" ;;
  print ("  Packets Received: " ++ str packets_in) ;;
  errors_in <- field2 data "network" "errors_in" ;;
  print ("  Errors In: " ++ str errors_in) ;;
  errors_out <- field2 data "network" "errors_out" ;;
  print ("  Errors Out: " ++ str errors_out).

(** The body of the loop of lines 229-232. *)
Definition print_process (proc : value) : M unit :=
  p <- lift (subscript proc "pid") ;;
  n <- lift (subscript proc "name") ;;
  c <- lift (subscript proc "cpu_percent") ;;
  m <- lift (subscript proc "memory_percent") ;;
  print ("  PID: " ++ str p ++ " | " ++ str n ++ " | CPU: " ++ str c
           ++ "% | MEM: " ++ str m ++ "%").

(** Lines 226-234. *)
Definition print_processes (data : dict) : M unit :=
  print (newline ++ dash_rule) ;;
  print "TOP CPU CONSUMING PROCESSES" ;;
  print dash_rule ;;
  top <- field2 data "processes" "top_cpu_processes" ;;
  entries <- lift (iterate top) ;;
  forM entries print_process ;;
  print (newline ++ equals_rule).

(** [print_report], lines 172-234. *)
Definition print_report : M unit :=
  data <- load ;;
  print_heading data ;;
  print_system data ;;
  print_cpu data ;;
  print_memory data ;;
  print_disk data ;;
  print_network data ;;
  print_processes data.

Definition critical_alert : string :=
  newline ++ "[ALERT] System is in CRITICAL state! Immediate attention required.".

Definition warning_alert : string :=
  newline ++ "[WARNING] System resources are running high. Monitor closely.".

Definition healthy_alert : string := newline ++ "[OK] System is healthy.".

(** [x == s] for a string literal [s]. *)
Definition is_str (x : value) (s : string) : bool :=
  match x with
  | VStr t => String.eqb t s
  | _ => false
  end.

(** Lines 256-262: the closing line. *)
Definition alert : M unit :=
  data <- load ;;
  overall <- field data "overall_health" ;;
  if is_str overall "CRITICAL" then print critical_alert
  else
    again <- field data "overall_health" ;;
    if is_str again "WARNING" then print warning_alert
    else print healthy_alert.

(** [main], lines 243-262, started at the instant whose ISO text is
    [now]. *)
Definition main (env : Provider) (now : string) : M unit :=
  construct now ;;
  collect_all_metrics env ;;
  print_report ;;
  export_to_json float_repr env default_filename ;;
  alert.

(** The guard of lines 265-271, for the exceptions of the model, which
    are all subclasses of [Exception]. *)
Definition script (env : Provider) (now : string) : M unit :=
  fun r =>
    match main env now r with
    | (Ok tt, r') => (Ok tt, r')
    | (Raise e, r') => print (newline ++ "Error during health check: " ++ exn_text e) r'
    end.

End Report.

(** The run [r] after the lines [lines] were printed. *)
Definition emit (lines : list string) (r : Run) : Run :=
  {| self := self r; stdout := stdout r ++ lines; files := files r |}.

(** Stand-ins for the interpreter's functions in the examples: the
    examples print no list or dictionary and no exception, and their
    keys are shown as they are. *)
Definition no_container (v : value) : string := "...".
Definition no_title (s : string) : string := s.

(** The closing line of [main] for an overall status. *)
Definition alert_line (s : StatusLevel) : string :=
  match s with
  | CRITICAL => critical_alert
  | WARNING => warning_alert
  | HEALTHY => healthy_alert
  end.

(** The run in which [main] starts its pass: a new checker, the output
    and the files as they are. *)
Definition started (now : string) (r : Run) : Run :=
  {| self := init now; stdout := stdout r; files := files r |}.

(** The line a pass prints first, and the line an export prints. *)
Definition opening_line : string := "Collecting system health metrics..." ++ newline.

Definition exported_line (filename : string) : string :=
  newline ++ "Health report exported to: " ++ filename.

(** The provider [h] on a file system where no file can be opened for
    writing. *)
Definition read_only (h : Provider) : Provider :=
  {| node := node h;
     system := system h;
     version := version h;
     machine := machine h;
     processor := processor h;
     python_version := python_version h;
     cpu_percent_percpu := cpu_percent_percpu h;
     cpu_count_physical := cpu_count_physical h;
     cpu_count_logical := cpu_count_logical h;
     cpu_percent_total := cpu_percent_total h;
     cpu_freq_tested := cpu_freq_tested h;
     cpu_freq_read := cpu_freq_read h;
     cpu_percent_status := cpu_percent_status h;
     virtual_memory := virtual_memory h;
     swap_memory := swap_memory h;
     disk_partitions := disk_partitions h;
     net_io_counters := net_io_counters h;
     net_if_addrs := net_if_addrs h;
     pids := pids h;
     process_iter := process_iter h;
     can_write := fun _ => false |}.

(** The provider [h] whose second and third cpu samples are [total] and
    [sample]. *)
Definition with_cpu_samples (h : Provider) (total sample : Q) : Provider :=
  {| node := node h;
     system := system h;
     version := version h;
     machine := machine h;
     processor := processor h;
     python_version := python_version h;
     cpu_percent_percpu := cpu_percent_percpu h;
     cpu_count_physical := cpu_count_physical h;
     cpu_count_logical := cpu_count_logical h;
     cpu_percent_total := total;
     cpu_freq_tested := cpu_freq_tested h;
     cpu_freq_read := cpu_freq_read h;
     cpu_percent_status := sample;
     virtual_memory := virtual_memory h;
     swap_memory := swap_memory h;
     disk_partitions := disk_partitions h;
     net_io_counters := net_io_counters h;
     net_if_addrs := net_if_addrs h;
     pids := pids h;
     process_iter := process_iter h;
     can_write := can_write h |}.

(** The provider [h] on a machine without network interfaces:
    [psutil.net_io_counters()] answers [None], [psutil.net_if_addrs()]
    the empty dictionary. *)
Definition without_interfaces (h : Provider) : Provider :=
  {| node := node h;
     system := system h;
     version := version h;
     machine := machine h;
     processor := processor h;
     python_version := python_version h;
     cpu_percent_percpu := cpu_percent_percpu h;
     cpu_count_physical := cpu_count_physical h;
     cpu_count_logical := cpu_count_logical h;
     cpu_percent_total := cpu_percent_total h;
     cpu_freq_tested := cpu_freq_tested h;
     cpu_freq_read := cpu_freq_read h;
     cpu_percent_status := cpu_percent_status h;
     virtual_memory := virtual_memory h;
     swap_memory := swap_memory h;
     disk_partitions := disk_partitions h;
     net_io_counters := None;
     net_if_addrs := [];
     pids := pids h;
     process_iter := process_iter h;
     can_write := can_write h |}.

(** The host of the examples, its instant, and the same host with a
    partition that fails with an error other than a permission failure. *)
Definition web_host : Provider := host 70 50 [(part "/dev/sda1" "/", Ok (usage_at 40))].

Definition noon : string := "2024-01-01T12:00:00".

Definition broken_host : Provider :=
  host 70 50 [ (part "/dev/sda1" "/", Ok (usage_at 40));
               (part "/dev/sdb1" "/gone", Raise OSError);
               (part "/dev/sdc1" "/data", Ok (usage_at 90)) ].

(** The processes among the five retained, and those left out. *)
Definition retained (env : Provider) : list procinfo :=
  firstn 5 (sorted_desc (process_iter env)).

Definition left_out (env : Provider) : list procinfo :=
  skipn 5 (sorted_desc (process_iter env)).

(** Whether a partition's usage could not be read. *)
Definition failed (pu : sdiskpart * result sdiskusage) : bool :=
  match snd pu with
  | Ok _ => false
  | Raise _ => true
  end.

(** [a] comes no later than [b] in decreasing order of cpu. *)
Definition before_by_cpu (a b : procinfo) : Prop := (sort_key b <= sort_key a)%Q.

(** Whether the sort key of a process is [c]. *)
Definition has_key (c : Q) (p : procinfo) : bool := Qeq_bool (sort_key p) c.

(** Whether a status string is one the aggregation looks for. *)
Definition alarming (s : string) : bool :=
  String.eqb "CRITICAL" s || String.eqb "WARNING" s.

(** ** Data that carry a status, and text between quotes *)

(** A report block carries the status [st] when it is a dictionary whose
    "status" entry is [st]. *)
Definition carries (block : value) (st : value) : Prop :=
  exists entries, block = VDict entries /\ dict_get entries "status" = Some st.

(** [s] between two double quotes (character 34), and the line break
    (character 10). *)
Definition quoted (s : string) : string :=
  String "034"%char (s ++ String "034"%char EmptyString).

Definition line_break : string := String "010"%char EmptyString.

(** * Properties *)

(** ** The order of levels and the classifier *)

Lemma Qltb_lt (x y : Q) : Qltb x y = true <-> (x < y)%Q.
Proof.
  unfold Qltb. rewrite negb_true_iff. split; intro H.
  - apply Qnot_le_lt. intro Hle. apply Qle_bool_iff in Hle. congruence.
  - destruct (Qle_bool y x) eqn:E; [|reflexivity].
    apply Qle_bool_iff in E. exfalso. exact (Qle_not_lt _ _ E H).
Qed.

Lemma Qltb_ge (x y : Q) : Qltb x y = false <-> (y <= x)%Q.
Proof.
  unfold Qltb. rewrite negb_false_iff. apply Qle_bool_iff.
Qed.

Lemma status_name_inj (a b : StatusLevel) : status_name a = status_name b -> a = b.
Proof. destruct a, b; simpl; intro H; try reflexivity; discriminate H. Qed.

Lemma status_le_refl (a : StatusLevel) : status_le a a.
Proof. unfold status_le. lia. Qed.

Lemma status_max_le_l (a b : StatusLevel) : status_le a (status_max a b).
Proof. destruct a, b; unfold status_le; simpl; lia. Qed.

Lemma status_max_le_r (a b : StatusLevel) : status_le b (status_max a b).
Proof. destruct a, b; unfold status_le; simpl; lia. Qed.

Lemma status_max_cases (a b : StatusLevel) : status_max a b = a \/ status_max a b = b.
Proof. destruct a, b; simpl; auto. Qed.

Lemma worst_of_upper (l : list StatusLevel) (s : StatusLevel) :
  In s l -> status_le s (worst_of l).
Proof.
  induction l as [|a l IH]; simpl; [tauto|].
  intros [->|Hin].
  - apply status_max_le_l.
  - specialize (IH Hin). pose proof (status_max_le_r a (worst_of l)).
    unfold status_le in *. lia.
Qed.

Lemma worst_of_member (l : list StatusLevel) : l <> [] -> In (worst_of l) l.
Proof.
  induction l as [|a l IH]; [congruence|]. intros _. simpl.
  destruct l as [|b l'].
  - left. destruct a; reflexivity.
  - destruct (status_max_cases a (worst_of (b :: l'))) as [E|E]; rewrite E.
    + now left.
    + right. apply IH. discriminate.
Qed.

Lemma worst_of_CRITICAL (l : list StatusLevel) :
  worst_of l = CRITICAL <-> In CRITICAL l.
Proof.
  split.
  - induction l as [|a l IH]; simpl; [discriminate|].
    destruct a, (worst_of l); simpl; intro H; try discriminate H; auto.
  - intro Hin. pose proof (worst_of_upper l CRITICAL Hin) as H.
    unfold status_le in H. destruct (worst_of l); simpl in H; try lia. reflexivity.
Qed.

Lemma worst_of_WARNING (l : list StatusLevel) :
  worst_of l = WARNING <-> ~ In CRITICAL l /\ In WARNING l.
Proof.
  rewrite <- worst_of_CRITICAL. split.
  - intro H. split; [congruence|].
    assert (Hne : l <> []) by (destruct l; [discriminate H | discriminate]).
    pose proof (worst_of_member l Hne) as Hm. now rewrite H in Hm.
  - intros [Hc Hw]. pose proof (worst_of_upper l WARNING Hw) as H.
    unfold status_le in H. destruct (worst_of l); simpl in H; try lia; congruence.
Qed.

Lemma worst_of_HEALTHY (l : list StatusLevel) :
  worst_of l = HEALTHY <-> ~ In CRITICAL l /\ ~ In WARNING l.
Proof.
  split.
  - intro H. split; intro Hin.
    + apply worst_of_CRITICAL in Hin. congruence.
    + pose proof (worst_of_upper l WARNING Hin) as Hle.
      rewrite H in Hle. unfold status_le in Hle. simpl in Hle. lia.
  - intros [Hc Hw]. destruct (worst_of l) eqn:E; [reflexivity| |].
    + apply worst_of_WARNING in E. tauto.
    + apply worst_of_CRITICAL in E. tauto.
Qed.

Lemma get_status_HEALTHY (p : Q) : (p < 60)%Q -> _get_status p = "HEALTHY".
Proof. intro H. unfold _get_status. apply Qltb_lt in H. now rewrite H. Qed.

Lemma get_status_WARNING (p : Q) :
  (60 <= p)%Q -> (p < 80)%Q -> _get_status p = "WARNING".
Proof.
  intros H1 H2. unfold _get_status.
  apply Qltb_ge in H1. apply Qltb_lt in H2. now rewrite H1, H2.
Qed.

Lemma get_status_CRITICAL (p : Q) : (80 <= p)%Q -> _get_status p = "CRITICAL".
Proof.
  intro H. unfold _get_status.
  assert (H60 : (60 <= p)%Q) by (apply Qle_trans with 80%Q; [discriminate | exact H]).
  apply Qltb_ge in H, H60. now rewrite H60, H.
Qed.

Lemma get_status_classify (p : Q) : _get_status p = status_name (classify p).
Proof.
  unfold _get_status, classify.
  destruct (Qltb p 60); [reflexivity|]. destruct (Qltb p 80); reflexivity.
Qed.


Lemma classify_cases (p : Q) :
  ((p < 60)%Q /\ classify p = HEALTHY) \/
  ((60 <= p)%Q /\ (p < 80)%Q /\ classify p = WARNING) \/
  ((80 <= p)%Q /\ classify p = CRITICAL).
Proof.
  unfold classify.
  destruct (Qltb p 60) eqn:E1.
  - left. apply Qltb_lt in E1. tauto.
  - apply Qltb_ge in E1. destruct (Qltb p 80) eqn:E2.
    + right; left. apply Qltb_lt in E2. tauto.
    + right; right. apply Qltb_ge in E2. tauto.
Qed.

(** ** The classifier (C2, C10) *)

(** C2, as stated, at percent 50 with thresholds (10, 20): the thresholds
    are in order and the percent is at or above the critical one, yet the
    classifier answers HEALTHY, since it has no threshold argument and
    compares with the literals 60 and 80. *)
Lemma get_status_ignores_thresholds :
  let p := 50%Q in
  let w := 10%Q in
  let c := 20%Q in
  (w < c)%Q /\ (c <= p)%Q /\
  _get_status p = status_name HEALTHY /\
  _get_status p <> status_name CRITICAL.
Proof.
  cbv zeta. repeat split; try reflexivity; try discriminate.
Qed.

(** C2, amended: with the fixed thresholds 60 and 80, every percent [p]
    (of any sign and size) is classified into one of the three levels:
    HEALTHY when p < 60, WARNING when 60 <= p < 80, CRITICAL when
    p >= 80, and so CRITICAL when p > 100. *)
Theorem get_status_fixed_thresholds (p : Q) :
  (exists s, _get_status p = status_name s) /\
  ((p < 60)%Q -> _get_status p = status_name HEALTHY) /\
  ((60 <= p)%Q -> (p < 80)%Q -> _get_status p = status_name WARNING) /\
  ((80 <= p)%Q -> _get_status p = status_name CRITICAL) /\
  ((100 < p)%Q -> _get_status p = status_name CRITICAL).
Proof.
  split; [exists (classify p); apply get_status_classify|].
  split; [apply get_status_HEALTHY|].
  split; [apply get_status_WARNING|].
  split; [apply get_status_CRITICAL|].
  intro H. apply get_status_CRITICAL. lra.
Qed.

(** C10: the classifier is monotone: when p1 <= p2, the level of p1 is
    at most the level of p2 in the order HEALTHY < WARNING < CRITICAL. *)
Theorem get_status_monotone (p1 p2 : Q) :
  (p1 <= p2)%Q ->
  exists s1 s2,
    _get_status p1 = status_name s1 /\
    _get_status p2 = status_name s2 /\
    status_le s1 s2.
Proof.
  intro Hle. exists (classify p1), (classify p2).
  split; [apply get_status_classify|]. split; [apply get_status_classify|].
  unfold status_le.
  destruct (classify_cases p1) as [[H1 ->]|[[H1 [H1' ->]]|[H1 ->]]];
    destruct (classify_cases p2) as [[H2 ->]|[[H2 [H2' ->]]|[H2 ->]]];
    simpl; try lia; exfalso; lra.
Qed.

Lemma get_status_monotone_witness :
  exists s1 s2,
    _get_status 50 = status_name s1 /\
    _get_status 70 = status_name s2 /\
    status_le s1 s2.
Proof.
  apply (get_status_monotone 50 70). discriminate.
Defined.

(** ** Aggregation (C1, C4, C5, C6, C9) *)

Lemma str_in_levels (a : StatusLevel) (l : list StatusLevel) :
  str_in (status_name a) (map status_value l) = true <-> In a l.
Proof.
  unfold str_in. rewrite existsb_exists. split.
  - intros [v [Hin Hv]]. apply in_map_iff in Hin as [b [<- Hb]].
    simpl in Hv. apply String.eqb_eq in Hv. apply status_name_inj in Hv.
    now subst.
  - intro Hin. exists (status_value a). split.
    + now apply in_map.
    + simpl. apply String.eqb_refl.
Qed.

Lemma str_in_levels_false (a : StatusLevel) (l : list StatusLevel) :
  str_in (status_name a) (map status_value l) = false <-> ~ In a l.
Proof.
  rewrite <- str_in_levels. destruct (str_in _ _); split; congruence.
Qed.

(** The test of lines 143-146 and 150-155 picks the worst level. *)
Lemma worst_test (l : list StatusLevel) :
  (if str_in "CRITICAL" (map status_value l) then "CRITICAL"
   else if str_in "WARNING" (map status_value l) then "WARNING"
   else "HEALTHY") = status_name (worst_of l).
Proof.
  destruct (str_in "CRITICAL" (map status_value l)) eqn:Ec.
  - apply (str_in_levels CRITICAL) in Ec. apply worst_of_CRITICAL in Ec.
    now rewrite Ec.
  - apply (str_in_levels_false CRITICAL) in Ec.
    destruct (str_in "WARNING" (map status_value l)) eqn:Ew.
    + apply (str_in_levels WARNING) in Ew.
      assert (E : worst_of l = WARNING) by (apply worst_of_WARNING; tauto).
      now rewrite E.
    + apply (str_in_levels_false WARNING) in Ew.
      assert (E : worst_of l = HEALTHY) by (apply worst_of_HEALTHY; tauto).
      now rewrite E.
Qed.

Lemma worst_disk_status_worst_of (ds : list StatusLevel) :
  worst_disk_status (map status_value ds) = status_name (worst_of ds).
Proof. unfold worst_disk_status. apply worst_test. Qed.

Lemma worst_of_report_levels (sc sm : StatusLevel) (ds : list StatusLevel) :
  worst_of [sc; sm; worst_of ds] = worst_of (report_levels sc sm ds).
Proof.
  unfold report_levels. destruct ds as [|d ds]; [|reflexivity].
  simpl. destruct sc, sm; reflexivity.
Qed.

(** What [get_overall_health] returns once its three reads succeed. *)
Lemma get_overall_health_reads (hd : dict) (c m : value) (ds : list value) :
  cpu_status hd = Ok c ->
  memory_status hd = Ok m ->
  disk_statuses hd = Ok ds ->
  get_overall_health hd =
    let statuses := [c; m; VStr (worst_disk_status ds)] in
    if str_in "CRITICAL" statuses then Ok "CRITICAL"
    else if str_in "WARNING" statuses then Ok "WARNING"
    else Ok "HEALTHY".
Proof.
  intros Hc Hm Hd. unfold get_overall_health, statuses.
  rewrite Hc, Hm, Hd. reflexivity.
Qed.

Lemma get_overall_health_levels (hd : dict) (sc sm : StatusLevel) (ds : list StatusLevel) :
  cpu_status hd = Ok (status_value sc) ->
  memory_status hd = Ok (status_value sm) ->
  disk_statuses hd = Ok (map status_value ds) ->
  get_overall_health hd = Ok (status_name (worst_of [sc; sm; worst_of ds])).
Proof.
  intros Hc Hm Hd. rewrite (get_overall_health_reads hd _ _ _ Hc Hm Hd).
  rewrite worst_disk_status_worst_of. cbv zeta.
  change [status_value sc; status_value sm; VStr (status_name (worst_of ds))]
    with (map status_value [sc; sm; worst_of ds]).
  rewrite <- worst_test.
  destruct (str_in "CRITICAL" _); [reflexivity|].
  destruct (str_in "WARNING" _); reflexivity.
Qed.

(** The verdict is always one of the three names. *)
Lemma get_overall_health_name (hd : dict) (s : string) :
  get_overall_health hd = Ok s -> exists o, s = status_name o.
Proof.
  unfold get_overall_health. destruct (statuses hd) as [l|e]; simpl; [|discriminate].
  destruct (str_in "CRITICAL" l); [intros [= <-]; now exists CRITICAL|].
  destruct (str_in "WARNING" l); intros [= <-]; [now exists WARNING | now exists HEALTHY].
Qed.

(** *** What a collection pass stores *)

Lemma cpu_info_status (env : Provider) (cpu : value) :
  get_cpu_info env = Ok cpu ->
  subscript cpu "status" = Ok (status_value (classify (cpu_percent_status env))).
Proof.
  unfold get_cpu_info. destruct (cpu_freq_entry env) as [f|e]; simpl; [|discriminate].
  intros [= <-]. simpl. unfold status_value. now rewrite get_status_classify.
Qed.

Lemma memory_info_status (env : Provider) :
  subscript (get_memory_info env) "status"
  = Ok (status_value (classify (vm_percent (virtual_memory env)))).
Proof. simpl. unfold status_value. now rewrite get_status_classify. Qed.

Lemma disk_entry_status (pu : sdiskpart * sdiskusage) :
  subscript (entry_of pu) "status" = Ok (status_value (level_of pu)).
Proof.
  unfold entry_of, level_of, status_value. simpl. now rewrite get_status_classify.
Qed.

Lemma disk_entries_statuses (l : list (sdiskpart * sdiskusage)) :
  mapM (fun disk => subscript disk "status") (map entry_of l)
  = Ok (map status_value (map level_of l)).
Proof.
  induction l as [|pu l IH]; [reflexivity|].
  cbn [map mapM]. rewrite disk_entry_status. cbn [bind]. rewrite IH. reflexivity.
Qed.

(** A loop that returns has appended the entries of the readable
    partitions, in their order, and nothing else. *)
Lemma disk_loop_returns (parts : list (sdiskpart * result sdiskusage)) :
  forall acc out,
    disk_loop parts acc = Ok out -> out = acc ++ map entry_of (readable parts).
Proof.
  induction parts as [|[p [u|e]] rest IH]; intros acc out H; simpl in *.
  - injection H as <-. now rewrite app_nil_r.
  - apply IH in H. rewrite H, <- app_assoc. reflexivity.
  - destruct e; try discriminate H. now apply IH.
Qed.

(** The loop returns when permission failures are the only ones. *)
Lemma disk_loop_permission (parts : list (sdiskpart * result sdiskusage)) :
  (forall p e, In (p, Raise e) parts -> e = PermissionError) ->
  forall acc, disk_loop parts acc = Ok (acc ++ map entry_of (readable parts)).
Proof.
  induction parts as [|[p [u|e]] rest IH]; intros Hperm acc; simpl.
  - now rewrite app_nil_r.
  - rewrite IH; [|intros q e Hin; apply (Hperm q e); now right].
    rewrite <- app_assoc. reflexivity.
  - rewrite (Hperm p e (or_introl eq_refl)).
    apply IH. intros q e' Hin. apply (Hperm q e'). now right.
Qed.

(** The pass, step by step, on a run given by its parts: what it returns
    and the run it leaves, also when a collector raises half-way. *)
Lemma collect_all_metrics_run
    (env : Provider) (ts : string) (d : dict) (out : list string)
    (fs : string -> option string) :
  collect_all_metrics env
    {| self := {| timestamp := ts; health_data := d |}; stdout := out; files := fs |}
  = let leave (data : dict) :=
      {| self := {| timestamp := ts; health_data := data |};
         stdout := out ++ [("Collecting system health metrics..." ++ newline)%string];
         files := fs |} in
    let d2 := dict_set (dict_set d "timestamp" (VStr ts)) "system" (get_system_info env) in
    match get_cpu_info env with
    | Raise e => (Raise e, leave d2)
    | Ok cpu =>
        let d4 := dict_set (dict_set d2 "cpu" cpu) "memory" (get_memory_info env) in
        match get_disk_info env with
        | Raise e => (Raise e, leave d4)
        | Ok disk =>
            let d5 := dict_set d4 "disk" (VList disk) in
            match get_network_info env with
            | Raise e => (Raise e, leave d5)
            | Ok network =>
                let d6 := dict_set d5 "network" network in
                match get_process_info env with
                | Raise e => (Raise e, leave d6)
                | Ok procs =>
                    let d7 := dict_set d6 "processes" procs in
                    match get_overall_health d7 with
                    | Raise e => (Raise e, leave d7)
                    | Ok overall =>
                        let d8 := dict_set d7 "overall_health" (VStr overall) in
                        (Ok d8, leave d8)
                    end
                end
            end
        end
    end.
Proof.
  unfold collect_all_metrics.
  destruct (get_cpu_info env) as [cpu|e]; [|reflexivity].
  destruct (get_disk_info env) as [disk|e]; [|reflexivity].
  destruct (get_network_info env) as [network|e]; [|reflexivity].
  destruct (get_process_info env) as [procs|e]; [|reflexivity].
  cbv [bindM print isoformat store lift load self stdout files timestamp health_data].
  destruct (get_overall_health _) as [overall|e]; reflexivity.
Qed.

(** *** The order of the stored fields *)

Ltac shape_of d H :=
  repeat match type of H with
  | keys ?x = [] => destruct x as [|[? ?] ?]; [clear H | discriminate H]
  | keys ?x = _ :: _ =>
      let k := fresh "k" in
      let v := fresh "v" in
      let d' := fresh "d" in
      destruct x as [|[k v] d']; [discriminate H|];
      cbn [keys map fst] in H; injection H as -> H; fold (keys d') in H
  end.

(** Seven stores on ordered data give the seven fields in order, then
    the old verdict if there was one. *)
Lemma seven_stores (d : dict) (v1 v2 v3 v4 v5 v6 v7 : value) :
  in_order d ->
  exists rest,
    (rest = [] \/ exists v, rest = [("overall_health", v)]) /\
    dict_set (dict_set (dict_set (dict_set (dict_set (dict_set (dict_set d
      "timestamp" v1) "system" v2) "cpu" v3) "memory" v4) "disk" v5)
      "network" v6) "processes" v7
    = [ ("timestamp", v1); ("system", v2); ("cpu", v3); ("memory", v4);
        ("disk", v5); ("network", v6); ("processes", v7) ] ++ rest.
Proof.
  intros [n Hn].
  do 8 (destruct n as [|n]; [cbn [firstn export_order] in Hn; shape_of d Hn;
                             exists []; split; [now left | reflexivity]|]).
  assert (Hfull : keys d = export_order) by (destruct n; exact Hn).
  clear Hn. unfold export_order in Hfull. shape_of d Hfull.
  eexists. split; [right; eexists; reflexivity | reflexivity].
Qed.

Lemma in_order_nil : in_order [].
Proof. now exists 0. Qed.

(** The reads of the aggregation find the first seven fields. *)
Lemma reads_of_fields (v1 v2 cpu mem disk v6 v7 : value) (rest : dict) :
  let d := [ ("timestamp", v1); ("system", v2); ("cpu", cpu); ("memory", mem);
             ("disk", disk); ("network", v6); ("processes", v7) ] ++ rest in
  cpu_status d = subscript cpu "status" /\
  memory_status d = subscript mem "status" /\
  disk_statuses d
  = (do items <- iterate disk; mapM (fun x => subscript x "status") items).
Proof. cbv zeta. repeat split. Qed.

Lemma get_overall_health_ext (hd1 hd2 : dict) :
  cpu_status hd1 = cpu_status hd2 ->
  memory_status hd1 = memory_status hd2 ->
  disk_statuses hd1 = disk_statuses hd2 ->
  get_overall_health hd1 = get_overall_health hd2.
Proof.
  intros Hc Hm Hd. unfold get_overall_health, statuses.
  now rewrite Hc, Hm, Hd.
Qed.

(** What a pass that returns has stored: the eight fields, in the export
    order, freshly computed, whatever ordered data the checker held. *)
Lemma collect_returns (env : Provider) (r : Run) (hd : dict) (r' : Run) :
  in_order (health_data (self r)) ->
  collect_all_metrics env r = (Ok hd, r') ->
  exists cpu disk network procs overall,
    get_cpu_info env = Ok cpu /\
    get_disk_info env = Ok disk /\
    get_network_info env = Ok network /\
    get_process_info env = Ok procs /\
    get_overall_health hd = Ok overall /\
    hd = [ ("timestamp", VStr (timestamp (self r)));
           ("system", get_system_info env);
           ("cpu", cpu);
           ("memory", get_memory_info env);
           ("disk", VList disk);
           ("network", network);
           ("processes", procs);
           ("overall_health", VStr overall) ] /\
    self r' = {| timestamp := timestamp (self r); health_data := hd |}.
Proof.
  destruct r as [[ts d] out fs]. cbn [self health_data timestamp].
  intros Hord. rewrite collect_all_metrics_run. cbv zeta.
  destruct (get_cpu_info env) as [cpu|e]; [|discriminate].
  destruct (get_disk_info env) as [disk|e]; [|discriminate].
  destruct (get_network_info env) as [network|e]; [|discriminate].
  destruct (get_process_info env) as [procs|e]; [|discriminate].
  destruct (seven_stores d (VStr ts) (get_system_info env) cpu (get_memory_info env)
              (VList disk) network procs Hord) as (rest & Hrest & ->).
  destruct (get_overall_health _) as [overall|e] eqn:Hov; [|discriminate].
  assert (Hset : forall v,
    dict_set ([ ("timestamp", VStr ts); ("system", get_system_info env); ("cpu", cpu);
                ("memory", get_memory_info env); ("disk", VList disk);
                ("network", network); ("processes", procs) ] ++ rest)
             "overall_health" v
    = [ ("timestamp", VStr ts); ("system", get_system_info env); ("cpu", cpu);
        ("memory", get_memory_info env); ("disk", VList disk);
        ("network", network); ("processes", procs);
        ("overall_health", v) ]).
  { intro v. destruct Hrest as [->|[v' ->]]; reflexivity. }
  rewrite Hset. intros [= <- <-]. exists cpu, disk, network, procs, overall.
  repeat split. rewrite <- Hov.
  pose proof (reads_of_fields (VStr ts) (get_system_info env) cpu (get_memory_info env)
                (VList disk) network procs rest) as (Hc & Hm & Hd).
  pose proof (reads_of_fields (VStr ts) (get_system_info env) cpu (get_memory_info env)
                (VList disk) network procs [("overall_health", VStr overall)])
    as (Hc' & Hm' & Hd').
  cbv zeta in *.
  apply get_overall_health_ext;
    [ etransitivity; [exact Hc' | symmetry; exact Hc]
    | etransitivity; [exact Hm' | symmetry; exact Hm]
    | etransitivity; [exact Hd' | symmetry; exact Hd] ].
Qed.

(** The statuses a pass that returns has stored. *)
Lemma collected_statuses (env : Provider) (r : Run) (hd : dict) (r' : Run) :
  in_order (health_data (self r)) ->
  collect_all_metrics env r = (Ok hd, r') ->
  cpu_status hd = Ok (status_value (classify (cpu_percent_status env))) /\
  memory_status hd = Ok (status_value (classify (vm_percent (virtual_memory env)))) /\
  disk_statuses hd
  = Ok (map status_value (map level_of (readable (disk_partitions env)))) /\
  dict_get hd "disk" = Some (VList (map entry_of (readable (disk_partitions env)))) /\
  exists overall,
    get_overall_health hd = Ok overall /\
    dict_get hd "overall_health" = Some (VStr overall).
Proof.
  intros Hord H. apply (collect_returns env r hd r' Hord) in H
    as (cpu & disk & network & procs & overall
        & Hcpu & Hdisk & Hnet & Hprocs & Hov & -> & _).
  apply cpu_info_status in Hcpu.
  apply disk_loop_returns in Hdisk. simpl in Hdisk. subst disk.
  split; [exact Hcpu|]. split; [apply memory_info_status|].
  split; [unfold disk_statuses; cbn; apply disk_entries_statuses|].
  split; [reflexivity|].
  exists overall. split; [exact Hov | reflexivity].
Qed.

(** *** The reads of the aggregation, from the data *)

Lemma block_status (hd : dict) (k : string) (block st : value) :
  dict_get hd k = Some block ->
  carries block st ->
  (do b <- subscript (VDict hd) k; subscript b "status") = Ok st.
Proof.
  intros Hk (entries & -> & Hst). cbn [subscript]. rewrite Hk. cbn [bind subscript].
  now rewrite Hst.
Qed.

Lemma partition_statuses (disk sts : list value) :
  Forall2 carries disk sts ->
  mapM (fun d => subscript d "status") disk = Ok sts.
Proof.
  induction 1 as [|d st disk sts (entries & -> & Hst) _ IH]; [reflexivity|].
  cbn [mapM subscript]. rewrite Hst. cbn [bind]. now rewrite IH.
Qed.

Lemma disk_statuses_of_data (hd : dict) (disk sts : list value) :
  dict_get hd "disk" = Some (VList disk) ->
  Forall2 carries disk sts ->
  disk_statuses hd = Ok sts.
Proof.
  intros Hk Hd. unfold disk_statuses. cbn [subscript]. rewrite Hk.
  cbn [bind iterate]. now apply partition_statuses.
Qed.

(** C1: when the health data hold a cpu block and a memory block that
    carry the levels [sc] and [sm], and a disk list whose partitions carry
    the levels [ds], whatever else the data and the blocks hold, the
    overall status is the maximum level over the non-empty subsystem
    reports (cpu, memory, and disk if it has a partition): it is a level
    of one of them and no report is above it; it is CRITICAL iff one of
    them is CRITICAL, WARNING iff none is CRITICAL and one is WARNING,
    HEALTHY iff none is CRITICAL or WARNING. *)
Theorem overall_health_is_worst_report
    (hd : dict) (cpu memory : value) (disk : list value)
    (sc sm : StatusLevel) (ds : list StatusLevel) :
  dict_get hd "cpu" = Some cpu ->
  carries cpu (status_value sc) ->
  dict_get hd "memory" = Some memory ->
  carries memory (status_value sm) ->
  dict_get hd "disk" = Some (VList disk) ->
  Forall2 carries disk (map status_value ds) ->
  exists o,
    get_overall_health hd = Ok (status_name o) /\
    o = worst_of (report_levels sc sm ds) /\
    In o (report_levels sc sm ds) /\
    (forall s, In s (report_levels sc sm ds) -> status_le s o) /\
    (o = CRITICAL <-> In CRITICAL (report_levels sc sm ds)) /\
    (o = WARNING <->
       ~ In CRITICAL (report_levels sc sm ds) /\ In WARNING (report_levels sc sm ds)) /\
    (o = HEALTHY <->
       ~ In CRITICAL (report_levels sc sm ds) /\ ~ In WARNING (report_levels sc sm ds)).
Proof.
  intros Hcpu Hc Hmem Hm Hdisk Hd. exists (worst_of (report_levels sc sm ds)).
  split.
  { rewrite (get_overall_health_levels hd sc sm ds
               (block_status hd "cpu" cpu _ Hcpu Hc)
               (block_status hd "memory" memory _ Hmem Hm)
               (disk_statuses_of_data hd disk _ Hdisk Hd)).
    now rewrite worst_of_report_levels. }
  split; [reflexivity|].
  split; [apply worst_of_member; discriminate|].
  split; [intros s Hs; now apply worst_of_upper|].
  split; [apply worst_of_CRITICAL|].
  split; [apply worst_of_WARNING | apply worst_of_HEALTHY].
Qed.

(** The health data of a pass on a host at cpu 50, memory 90, with one
    partition at 70: memory alone makes the verdict CRITICAL. *)
Lemma overall_health_is_worst_report_witness :
  exists o,
    get_overall_health
      (collected (host 50 90 [(part "/dev/sda1" "/", Ok (usage_at 70))])
                 "2024-01-01T00:00:00")
    = Ok (status_name o) /\
    o = worst_of (report_levels HEALTHY CRITICAL [WARNING]) /\
    In o (report_levels HEALTHY CRITICAL [WARNING]) /\
    (forall s, In s (report_levels HEALTHY CRITICAL [WARNING]) -> status_le s o) /\
    (o = CRITICAL <-> In CRITICAL (report_levels HEALTHY CRITICAL [WARNING])) /\
    (o = WARNING <->
       ~ In CRITICAL (report_levels HEALTHY CRITICAL [WARNING]) /\
       In WARNING (report_levels HEALTHY CRITICAL [WARNING])) /\
    (o = HEALTHY <->
       ~ In CRITICAL (report_levels HEALTHY CRITICAL [WARNING]) /\
       ~ In WARNING (report_levels HEALTHY CRITICAL [WARNING])).
Proof.
  eapply (overall_health_is_worst_report
            (collected (host 50 90 [(part "/dev/sda1" "/", Ok (usage_at 70))])
                       "2024-01-01T00:00:00")
            _ _ _ HEALTHY CRITICAL [WARNING]).
  - reflexivity.
  - eexists. split; reflexivity.
  - reflexivity.
  - eexists. split; reflexivity.
  - reflexivity.
  - constructor; [eexists; split; reflexivity | constructor].
Defined.

(** C9: the verdict depends on the status the cpu block carries, the
    status the memory block carries and the statuses the partitions of
    the disk list carry, and on nothing else: two health data that agree
    on these get the same verdict, one of the three status names,
    whatever their timestamp, system, network and process entries are
    and whatever else their blocks hold. *)
Theorem overall_health_depends_on_statuses
    (hd1 hd2 : dict) (cpu1 cpu2 memory1 memory2 : value) (disk1 disk2 : list value)
    (sc sm : value) (ds : list value) :
  dict_get hd1 "cpu" = Some cpu1 ->
  dict_get hd2 "cpu" = Some cpu2 ->
  carries cpu1 sc ->
  carries cpu2 sc ->
  dict_get hd1 "memory" = Some memory1 ->
  dict_get hd2 "memory" = Some memory2 ->
  carries memory1 sm ->
  carries memory2 sm ->
  dict_get hd1 "disk" = Some (VList disk1) ->
  dict_get hd2 "disk" = Some (VList disk2) ->
  Forall2 carries disk1 ds ->
  Forall2 carries disk2 ds ->
  get_overall_health hd1 = get_overall_health hd2 /\
  exists o,
    get_overall_health hd1 = Ok (status_name o) /\
    get_overall_health hd2 = Ok (status_name o).
Proof.
  intros Hcpu1 Hcpu2 Hc1 Hc2 Hmem1 Hmem2 Hm1 Hm2 Hdisk1 Hdisk2 Hd1 Hd2.
  pose proof (get_overall_health_reads hd1 sc sm ds
                (block_status hd1 "cpu" cpu1 sc Hcpu1 Hc1)
                (block_status hd1 "memory" memory1 sm Hmem1 Hm1)
                (disk_statuses_of_data hd1 disk1 ds Hdisk1 Hd1)) as H1.
  pose proof (get_overall_health_reads hd2 sc sm ds
                (block_status hd2 "cpu" cpu2 sc Hcpu2 Hc2)
                (block_status hd2 "memory" memory2 sm Hmem2 Hm2)
                (disk_statuses_of_data hd2 disk2 ds Hdisk2 Hd2)) as H2.
  cbv zeta in H1, H2. rewrite H1, H2. split; [reflexivity|].
  destruct (str_in "CRITICAL" _); [now exists CRITICAL|].
  destruct (str_in "WARNING" _); [now exists WARNING | now exists HEALTHY].
Qed.

(** Two passes on hosts that differ in system information, network
    counters, process table and timestamp, at cpu 70, memory 50, with one
    partition at 40. *)
Lemma overall_health_depends_on_statuses_witness :
  get_overall_health
    (collected (host 70 50 [(part "/dev/sda1" "/", Ok (usage_at 40))])
               "2024-01-01T00:00:00")
  = get_overall_health
      (collected (other_host 70 50 [(part "/dev/sda1" "/", Ok (usage_at 40))])
                 "2025-06-30T12:00:00") /\
  exists o,
    get_overall_health
      (collected (host 70 50 [(part "/dev/sda1" "/", Ok (usage_at 40))])
                 "2024-01-01T00:00:00")
    = Ok (status_name o) /\
    get_overall_health
      (collected (other_host 70 50 [(part "/dev/sda1" "/", Ok (usage_at 40))])
                 "2025-06-30T12:00:00")
    = Ok (status_name o).
Proof.
  eapply (overall_health_depends_on_statuses
            (collected (host 70 50 [(part "/dev/sda1" "/", Ok (usage_at 40))])
                       "2024-01-01T00:00:00")
            (collected (other_host 70 50 [(part "/dev/sda1" "/", Ok (usage_at 40))])
                       "2025-06-30T12:00:00")
            _ _ _ _ _ _ (VStr "WARNING") (VStr "HEALTHY") [VStr "HEALTHY"]).
  - reflexivity.
  - reflexivity.
  - eexists. split; reflexivity.
  - eexists. split; reflexivity.
  - reflexivity.
  - reflexivity.
  - eexists. split; reflexivity.
  - eexists. split; reflexivity.
  - reflexivity.
  - reflexivity.
  - constructor; [eexists; split; reflexivity | constructor].
  - constructor; [eexists; split; reflexivity | constructor].
Defined.

(** C4, as stated, on a host at cpu 70, memory 90 whose only partition is
    unreadable: the disk report is the empty list, and the aggregation
    does assign it HEALTHY by default and does reduce over it: the list
    it reduces has three statuses, the third being that default. *)
Lemma empty_disk_defaults_to_HEALTHY :
  let env := host 70 90 [locked "/dev/sdb1" "/locked"] in
  get_disk_info env = Ok [] /\
  worst_disk_status [] = status_name HEALTHY /\
  exists hd r',
    collect_all_metrics env (fresh "2024-01-01T00:00:00") = (Ok hd, r') /\
    disk_statuses hd = Ok [] /\
    statuses hd = Ok [VStr "WARNING"; VStr "CRITICAL"; VStr "HEALTHY"].
Proof.
  cbv zeta. split; [reflexivity|]. split; [reflexivity|].
  eexists. eexists. split; [vm_compute; reflexivity|].
  split; vm_compute; reflexivity.
Qed.

Lemma readable_all_locked (parts : list (sdiskpart * result sdiskusage)) :
  (forall p o, In (p, o) parts -> o = Raise PermissionError) -> readable parts = [].
Proof.
  induction parts as [|[p o] rest IH]; intro H; [reflexivity|].
  rewrite (H p o (or_introl eq_refl)). simpl.
  apply IH. intros q o' Hin. apply (H q o'). now right.
Qed.

(** C4, amended: in every collection pass in which every disk partition
    fails with a permission failure, the disk report is the empty list;
    the aggregation gives it the status HEALTHY by default and reduces
    over it with the cpu and memory statuses; HEALTHY being the least
    level, the overall status is the worse of the cpu and memory
    statuses. *)
Theorem empty_disk_counts_as_HEALTHY
    (env : Provider) (r : Run) (hd : dict) (r' : Run) :
  (forall p o, In (p, o) (disk_partitions env) -> o = Raise PermissionError) ->
  in_order (health_data (self r)) ->
  collect_all_metrics env r = (Ok hd, r') ->
  let sc := classify (cpu_percent_status env) in
  let sm := classify (vm_percent (virtual_memory env)) in
  dict_get hd "disk" = Some (VList []) /\
  statuses hd = Ok [status_value sc; status_value sm; status_value HEALTHY] /\
  get_overall_health hd = Ok (status_name (status_max sc sm)) /\
  dict_get hd "overall_health" = Some (status_value (status_max sc sm)).
Proof.
  intros Hall Hord H sc sm.
  destruct (collected_statuses env r hd r' Hord H) as (Hc & Hm & Hd & Hdisk & ov & Hov & Hst).
  rewrite (readable_all_locked _ Hall) in Hd, Hdisk. simpl in Hd, Hdisk.
  assert (Hoverall : get_overall_health hd = Ok (status_name (status_max sc sm))).
  { rewrite (get_overall_health_levels hd sc sm [] Hc Hm Hd).
    subst sc sm. simpl.
    destruct (classify (cpu_percent_status env)),
             (classify (vm_percent (virtual_memory env))); reflexivity. }
  split; [exact Hdisk|].
  split; [unfold statuses; rewrite Hc, Hm, Hd; reflexivity|].
  split; [exact Hoverall|].
  rewrite Hoverall in Hov. injection Hov as <-. exact Hst.
Qed.

Lemma empty_disk_counts_as_HEALTHY_witness :
  let env := host 70 90 [locked "/dev/sdb1" "/locked"; locked "/dev/sdc1" "/vault"] in
  let hd := collected env "2024-01-01T00:00:00" in
  dict_get hd "disk" = Some (VList []) /\
  statuses hd = Ok [status_value WARNING; status_value CRITICAL; status_value HEALTHY] /\
  get_overall_health hd = Ok (status_name CRITICAL) /\
  dict_get hd "overall_health" = Some (status_value CRITICAL).
Proof.
  cbv zeta.
  refine (empty_disk_counts_as_HEALTHY
            (host 70 90 [locked "/dev/sdb1" "/locked"; locked "/dev/sdc1" "/vault"])
            (fresh "2024-01-01T00:00:00") _
            (snd (collect_all_metrics
                    (host 70 90 [locked "/dev/sdb1" "/locked"; locked "/dev/sdc1" "/vault"])
                    (fresh "2024-01-01T00:00:00"))) _ _ _).
  - intros p o [H|[H|[]]]; inversion H; reflexivity.
  - exact in_order_nil.
  - vm_compute. reflexivity.
Defined.

(** C5, as stated, on a checker that has collected nothing: the
    aggregation does fail and returns no status, but the exception is
    the [KeyError] of the missing "cpu" entry; the program has no
    AggregationError. *)
Lemma missing_reports_raise_KeyError :
  get_overall_health (health_data (init "2024-01-01T00:00:00"))
  = Raise (KeyError "cpu") /\
  exn_class (KeyError "cpu") = "KeyError" /\
  exn_class (KeyError "cpu") <> "AggregationError".
Proof. repeat split. discriminate. Qed.

(** C5, amended: called on health data with no cpu report, as it is
    with zero subsystem reports, the aggregation raises the [KeyError]
    of the key "cpu"; it returns no status, so it does not return
    HEALTHY. *)
Theorem overall_health_without_reports (hd : dict) :
  dict_get hd "cpu" = None ->
  get_overall_health hd = Raise (KeyError "cpu") /\
  exn_class (KeyError "cpu") = "KeyError" /\
  (forall s, get_overall_health hd <> Ok s).
Proof.
  intro H.
  assert (E : get_overall_health hd = Raise (KeyError "cpu")).
  { unfold get_overall_health, statuses, cpu_status, subscript. now rewrite H. }
  split; [exact E|]. split; [reflexivity|].
  intros s Hs. rewrite E in Hs. discriminate Hs.
Qed.

Lemma overall_health_without_reports_witness :
  get_overall_health [] = Raise (KeyError "cpu") /\
  exn_class (KeyError "cpu") = "KeyError" /\
  (forall s, get_overall_health [] <> Ok s).
Proof. apply (overall_health_without_reports []). reflexivity. Defined.

(** C6: the status of the disk subsystem is the worst level among its
    partitions: for a non-empty list of partition levels it is the name
    of a level of the list that no level of the list exceeds; after a
    pass it is the worst of the levels the classifier gave the readable
    partitions; and with partitions at 95% and 10%, cpu and memory at
    50%, the disk status and the overall status are CRITICAL. *)
Theorem disk_status_is_worst_partition :
  (forall ds : list StatusLevel,
     ds <> [] ->
     exists w,
       worst_disk_status (map status_value ds) = status_name w /\
       In w ds /\
       (forall s, In s ds -> status_le s w)) /\
  (forall env r hd r',
     in_order (health_data (self r)) ->
     collect_all_metrics env r = (Ok hd, r') ->
     exists ds,
       disk_statuses hd = Ok ds /\
       worst_disk_status ds
       = status_name (worst_of (map level_of (readable (disk_partitions env))))) /\
  (let env := host 50 50 [ (part "/dev/sda1" "/", Ok (usage_at 95));
                           (part "/dev/sdb1" "/data", Ok (usage_at 10)) ] in
   let hd := collected env "2024-01-01T00:00:00" in
   disk_statuses hd = Ok [status_value CRITICAL; status_value HEALTHY] /\
   worst_disk_status [status_value CRITICAL; status_value HEALTHY]
   = status_name CRITICAL /\
   cpu_status hd = Ok (status_value HEALTHY) /\
   memory_status hd = Ok (status_value HEALTHY) /\
   get_overall_health hd = Ok (status_name CRITICAL)).
Proof.
  split; [|split].
  - intros ds Hne. exists (worst_of ds).
    split; [apply worst_disk_status_worst_of|].
    split; [now apply worst_of_member | intros s; apply worst_of_upper].
  - intros env r hd r' Hord H.
    destruct (collected_statuses env r hd r' Hord H) as (_ & _ & Hd & _).
    eexists. split; [exact Hd | apply worst_disk_status_worst_of].
  - cbv zeta. repeat split; vm_compute; reflexivity.
Qed.

(** ** Disk evaluation under a permission failure (C3) *)

Lemma readable_of_readable (l : list (sdiskpart * sdiskusage)) :
  readable (map readable_part l) = l.
Proof.
  induction l as [|[p u] l IH]; [reflexivity|]. simpl. now rewrite IH.
Qed.

Lemma readable_app (l1 l2 : list (sdiskpart * result sdiskusage)) :
  readable (l1 ++ l2) = readable l1 ++ readable l2.
Proof.
  induction l1 as [|[p [u|e]] l1 IH]; simpl; [reflexivity| |exact IH].
  now rewrite IH.
Qed.

(** C3, as stated, on two partitions of which the second is unreadable:
    the report is the one entry of the readable partition (N-1 = 1 item)
    and nothing more; neither the report, nor the health data of the
    whole pass, names the excluded partition, and the pass prints its
    opening line only: no skip diagnostic is recorded anywhere. *)
Lemma skipped_partition_leaves_no_diagnostic :
  let env := host 50 50 [ (part "/dev/sda1" "/", Ok (usage_at 40));
                          locked "/dev/sdb1" "/locked" ] in
  get_disk_info env = Ok [disk_entry (part "/dev/sda1" "/") (usage_at 40)] /\
  mentions "/locked" (VList [disk_entry (part "/dev/sda1" "/") (usage_at 40)]) = false /\
  mentions "/dev/sdb1" (VList [disk_entry (part "/dev/sda1" "/") (usage_at 40)]) = false /\
  exists hd r',
    collect_all_metrics env (fresh "2024-01-01T00:00:00") = (Ok hd, r') /\
    mentions "/locked" (VDict hd) = false /\
    mentions "/dev/sdb1" (VDict hd) = false /\
    stdout r' = [("Collecting system health metrics..." ++ newline)%string].
Proof.
  cbv zeta. split; [reflexivity|]. split; [reflexivity|]. split; [reflexivity|].
  eexists. eexists. split; [vm_compute; reflexivity|].
  repeat split; vm_compute; reflexivity.
Qed.

(** C3, amended: when exactly one of the N partitions raises a
    permission failure and the others are read, disk evaluation does not
    raise; it returns the entries of the N-1 readable partitions, in
    their order, and nothing else: the unreadable partition is dropped
    without a skip diagnostic. *)
Theorem disk_info_drops_unreadable
    (env : Provider) (before after : list (sdiskpart * sdiskusage)) (p : sdiskpart) :
  disk_partitions env
  = map readable_part before ++ (p, Raise PermissionError) :: map readable_part after ->
  get_disk_info env = Ok (map entry_of (before ++ after)) /\
  List.length (map entry_of (before ++ after)) = List.length (disk_partitions env) - 1.
Proof.
  intro H. unfold get_disk_info. rewrite H. split.
  - rewrite disk_loop_permission.
    + rewrite readable_app. cbn [readable app].
      now rewrite !readable_of_readable.
    + intros q e Hin. apply in_app_or in Hin as [Hin|[Hin|Hin]].
      * apply in_map_iff in Hin as [pu [Hpu _]]. discriminate Hpu.
      * now injection Hin as _ <-.
      * apply in_map_iff in Hin as [pu [Hpu _]]. discriminate Hpu.
  - rewrite length_map, !length_app. cbn [List.length].
    rewrite !length_map. lia.
Qed.

Lemma disk_info_drops_unreadable_witness :
  get_disk_info
    (host 50 50 [ (part "/dev/sda1" "/", Ok (usage_at 40));
                  locked "/dev/sdb1" "/locked";
                  (part "/dev/sdc1" "/data", Ok (usage_at 70)) ])
  = Ok (map entry_of ([(part "/dev/sda1" "/", usage_at 40)]
                        ++ [(part "/dev/sdc1" "/data", usage_at 70)])) /\
  List.length (map entry_of ([(part "/dev/sda1" "/", usage_at 40)]
                               ++ [(part "/dev/sdc1" "/data", usage_at 70)]))
  = List.length
      (disk_partitions
         (host 50 50 [ (part "/dev/sda1" "/", Ok (usage_at 40));
                       locked "/dev/sdb1" "/locked";
                       (part "/dev/sdc1" "/data", Ok (usage_at 70)) ])) - 1.
Proof.
  apply (disk_info_drops_unreadable
           (host 50 50 [ (part "/dev/sda1" "/", Ok (usage_at 40));
                         locked "/dev/sdb1" "/locked";
                         (part "/dev/sdc1" "/data", Ok (usage_at 70)) ])
           [(part "/dev/sda1" "/", usage_at 40)]
           [(part "/dev/sdc1" "/data", usage_at 70)]
           (part "/dev/sdb1" "/locked")).
  reflexivity.
Defined.

(** ** The structured export (C7, C8) *)

(** What an export does when the file can be opened: the file receives
    the JSON text of the health data, one line is printed, and the
    checker and the other files stay as they were. *)
Lemma export_to_json_run
    (float_repr : Q -> string) (env : Provider) (filename : string) (r : Run) :
  can_write env filename = true ->
  export_to_json float_repr env filename r
  = (Ok tt,
     {| self := self r;
        stdout := stdout r ++ [(newline ++ "Health report exported to: " ++ filename)%string];
        files := fun p => if String.eqb p filename
                          then Some (dump float_repr (health_data (self r)))
                          else files r p |}).
Proof.
  intro Hw. unfold export_to_json. rewrite Hw. reflexivity.
Qed.

(** The text of a dictionary lists its entries in the dictionary's order. *)
Lemma dump_entries (float_repr : Q -> string) (k : string) (v : value) (rest : dict) :
  dump float_repr ((k, v) :: rest)
  = ("{" ++ newline_indent 1
         ++ join ("," ++ newline_indent 1)
              (map (fun kv => member float_repr 1 (fst kv) (snd kv)) ((k, v) :: rest))
         ++ newline_indent 0 ++ "}")%string.
Proof.
  unfold dump, member. cbn [encode]. do 2 f_equal. f_equal. f_equal.
  apply map_ext. now intros [k' v'].
Qed.

Lemma append_assoc (a b c : string) : ((a ++ b) ++ c = a ++ (b ++ c))%string.
Proof.
  induction a as [|x a IH]; cbn; [reflexivity | now rewrite IH].
Qed.

(** The text of a status name is the name between double quotes. *)
Lemma encode_status_value (float_repr : Q -> string) (level : nat) (o : StatusLevel) :
  encode float_repr level (VStr (status_name o)) = quoted (status_name o).
Proof. destruct o; reflexivity. Qed.

(** C7: after a pass that returns, the health data holds exactly the
    fields timestamp, system, cpu, memory, disk, network, processes and
    overall_health, in this order, the last being one of the three status
    names; the export writes them to the file in this same order: the
    text of the file is an opening brace, then one line per field, each
    with the name of the field between double quotes, a colon, a space
    and the text of the value, the lines separated by commas, then a
    closing brace. *)
Theorem export_fields_in_order
    (float_repr : Q -> string) (env : Provider) (filename : string)
    (r : Run) (hd : dict) (r1 : Run) :
  in_order (health_data (self r)) ->
  collect_all_metrics env r = (Ok hd, r1) ->
  can_write env filename = true ->
  exists system cpu memory disk network processes overall r2,
    hd = [ ("timestamp", VStr (timestamp (self r))); ("system", system);
           ("cpu", cpu); ("memory", memory); ("disk", disk);
           ("network", network); ("processes", processes);
           ("overall_health", status_value overall) ] /\
    keys hd = export_order /\
    export_to_json float_repr env filename r1 = (Ok tt, r2) /\
    files r2 filename
    = Some ("{" ++ line_break
            ++ "  " ++ quoted "timestamp" ++ ": "
                    ++ encode float_repr 1 (VStr (timestamp (self r)))
            ++ "," ++ line_break
            ++ "  " ++ quoted "system" ++ ": " ++ encode float_repr 1 system
            ++ "," ++ line_break
            ++ "  " ++ quoted "cpu" ++ ": " ++ encode float_repr 1 cpu
            ++ "," ++ line_break
            ++ "  " ++ quoted "memory" ++ ": " ++ encode float_repr 1 memory
            ++ "," ++ line_break
            ++ "  " ++ quoted "disk" ++ ": " ++ encode float_repr 1 disk
            ++ "," ++ line_break
            ++ "  " ++ quoted "network" ++ ": " ++ encode float_repr 1 network
            ++ "," ++ line_break
            ++ "  " ++ quoted "processes" ++ ": " ++ encode float_repr 1 processes
            ++ "," ++ line_break
            ++ "  " ++ quoted "overall_health" ++ ": " ++ quoted (status_name overall)
            ++ line_break ++ "}")%string.
Proof.
  intros Hord H Hw.
  destruct (collect_returns env r hd r1 Hord H)
    as (cpu & disk & network & procs & overall & _ & _ & _ & _ & Hov & Hhd & Hself).
  destruct (get_overall_health_name hd overall Hov) as [o ->].
  exists (get_system_info env), cpu, (get_memory_info env), (VList disk),
         network, procs, o.
  eexists. split; [exact Hhd|]. split; [rewrite Hhd; reflexivity|].
  split; [apply export_to_json_run; exact Hw|].
  cbn [files]. rewrite String.eqb_refl, Hself. cbn [health_data].
  rewrite Hhd, dump_entries. unfold member. cbn [map fst snd join].
  f_equal. rewrite (encode_status_value float_repr 1 o).
  generalize (encode float_repr 1 (VStr (timestamp (self r)))),
             (encode float_repr 1 (get_system_info env)),
             (encode float_repr 1 cpu),
             (encode float_repr 1 (get_memory_info env)),
             (encode float_repr 1 (VList disk)),
             (encode float_repr 1 network),
             (encode float_repr 1 procs).
  intros t1 t2 t3 t4 t5 t6 t7.
  rewrite !append_assoc. destruct o; reflexivity.
Qed.

Lemma export_fields_in_order_witness :
  exists system cpu memory disk network processes overall r2,
    collected (host 70 50 [(part "/dev/sda1" "/", Ok (usage_at 40))]) "2024-01-01T00:00:00"
    = [ ("timestamp", VStr (timestamp (self (fresh "2024-01-01T00:00:00"))));
        ("system", system); ("cpu", cpu); ("memory", memory); ("disk", disk);
        ("network", network); ("processes", processes);
        ("overall_health", status_value overall) ] /\
    keys (collected (host 70 50 [(part "/dev/sda1" "/", Ok (usage_at 40))])
            "2024-01-01T00:00:00") = export_order /\
    export_to_json two_places (host 70 50 [(part "/dev/sda1" "/", Ok (usage_at 40))])
      default_filename
      (snd (collect_all_metrics (host 70 50 [(part "/dev/sda1" "/", Ok (usage_at 40))])
              (fresh "2024-01-01T00:00:00")))
    = (Ok tt, r2) /\
    files r2 default_filename
    = Some ("{" ++ line_break
            ++ "  " ++ quoted "timestamp" ++ ": "
                    ++ encode two_places 1
                         (VStr (timestamp (self (fresh "2024-01-01T00:00:00"))))
            ++ "," ++ line_break
            ++ "  " ++ quoted "system" ++ ": " ++ encode two_places 1 system
            ++ "," ++ line_break
            ++ "  " ++ quoted "cpu" ++ ": " ++ encode two_places 1 cpu
            ++ "," ++ line_break
            ++ "  " ++ quoted "memory" ++ ": " ++ encode two_places 1 memory
            ++ "," ++ line_break
            ++ "  " ++ quoted "disk" ++ ": " ++ encode two_places 1 disk
            ++ "," ++ line_break
            ++ "  " ++ quoted "network" ++ ": " ++ encode two_places 1 network
            ++ "," ++ line_break
            ++ "  " ++ quoted "processes" ++ ": " ++ encode two_places 1 processes
            ++ "," ++ line_break
            ++ "  " ++ quoted "overall_health" ++ ": " ++ quoted (status_name overall)
            ++ line_break ++ "}")%string.
Proof.
  apply (export_fields_in_order two_places
           (host 70 50 [(part "/dev/sda1" "/", Ok (usage_at 40))]) default_filename
           (fresh "2024-01-01T00:00:00")).
  - exact in_order_nil.
  - vm_compute. reflexivity.
  - reflexivity.
Defined.

(** C8: the exported text is a function of the health data alone: an
    export writes the JSON text of the health data and leaves the checker
    as it was, so a second export of the same checker writes the same
    bytes, and so does the export of any run that holds equal health
    data, whatever its timestamp, output and files. *)
Theorem export_is_deterministic
    (float_repr : Q -> string) (env : Provider) (filename : string) (r r' : Run) :
  can_write env filename = true ->
  health_data (self r) = health_data (self r') ->
  let r1 := snd (export_to_json float_repr env filename r) in
  let r2 := snd (export_to_json float_repr env filename r1) in
  let r1' := snd (export_to_json float_repr env filename r') in
  fst (export_to_json float_repr env filename r) = Ok tt /\
  fst (export_to_json float_repr env filename r1) = Ok tt /\
  files r1 filename = Some (dump float_repr (health_data (self r))) /\
  self r1 = self r /\
  files r2 filename = files r1 filename /\
  files r1' filename = files r1 filename.
Proof.
  intros Hw Heq. cbv zeta.
  rewrite !export_to_json_run by exact Hw.
  cbn [fst snd self files]. rewrite String.eqb_refl, Heq. repeat split.
Qed.

Lemma export_is_deterministic_witness :
  let env := host 70 50 [(part "/dev/sda1" "/", Ok (usage_at 40))] in
  let r := snd (collect_all_metrics env (fresh "2024-01-01T00:00:00")) in
  let r' := {| self := {| timestamp := "2025-06-30T12:00:00";
                          health_data := health_data (self r) |};
               stdout := [];
               files := fun _ => Some "stale" |} in
  let r1 := snd (export_to_json two_places env default_filename r) in
  let r2 := snd (export_to_json two_places env default_filename r1) in
  let r1' := snd (export_to_json two_places env default_filename r') in
  fst (export_to_json two_places env default_filename r) = Ok tt /\
  fst (export_to_json two_places env default_filename r1) = Ok tt /\
  files r1 default_filename = Some (dump two_places (health_data (self r))) /\
  self r1 = self r /\
  files r2 default_filename = files r1 default_filename /\
  files r1' default_filename = files r1 default_filename.
Proof.
  cbv zeta.
  apply (export_is_deterministic two_places
           (host 70 50 [(part "/dev/sda1" "/", Ok (usage_at 40))]) default_filename);
    reflexivity.
Defined.

(** Ordered data stay ordered through a pass, whether it returns or
    raises, and through an export: every checker reached from [init] by
    passes and exports holds ordered data. *)
Lemma collect_keeps_order (env : Provider) (r : Run) :
  in_order (health_data (self r)) ->
  in_order (health_data (self (snd (collect_all_metrics env r)))).
Proof.
  destruct r as [[ts d] out fs]. cbn [self health_data].
  intros [n Hn]. rewrite collect_all_metrics_run. cbv zeta.
  destruct n as [|[|[|[|[|[|[|[|n]]]]]]]];
    cbn [firstn export_order] in Hn; rewrite ?firstn_nil in Hn; shape_of d Hn.
  all: destruct (get_cpu_info env) as [cpu|e];
    [|cbn; first [now exists 2 | now exists 3 | now exists 4 | now exists 5
                 | now exists 6 | now exists 7 | now exists 8]].
  all: destruct (get_disk_info env) as [disk|e];
    [|cbn; first [now exists 4 | now exists 5 | now exists 6 | now exists 7
                 | now exists 8]].
  all: destruct (get_network_info env) as [network|e];
    [|cbn; first [now exists 5 | now exists 6 | now exists 7 | now exists 8]].
  all: destruct (get_process_info env) as [procs|e];
    [|cbn; first [now exists 6 | now exists 7 | now exists 8]].
  all: destruct (get_overall_health _) as [overall|e];
    cbn; first [now exists 7 | now exists 8].
Qed.

(** * Further properties of the program *)

From Stdlib Require Import Permutation Sorted.

(** ** Running a method step by step *)

Lemma bindM_ok {A B : Type} (m : M A) (k : A -> M B) (r r' : Run) (a : A) :
  m r = (Ok a, r') -> bindM m k r = k a r'.
Proof. intro H. unfold bindM. now rewrite H. Qed.

Lemma bindM_raise {A B : Type} (m : M A) (k : A -> M B) (r r' : Run) (e : exn) :
  m r = (Raise e, r') -> bindM m k r = (Raise e, r').
Proof. intro H. unfold bindM. now rewrite H. Qed.

Lemma print_run (line : string) (r : Run) : print line r = (Ok tt, emit [line] r).
Proof. reflexivity. Qed.

Lemma emit_nil (r : Run) : emit [] r = r.
Proof. destruct r. unfold emit. cbn. now rewrite app_nil_r. Qed.

Lemma emit_emit (l1 l2 : list string) (r : Run) :
  emit l2 (emit l1 r) = emit (l1 ++ l2) r.
Proof. unfold emit. cbn. now rewrite app_assoc. Qed.

(** A sequence of two steps that print and return. *)
Lemma then_emit {B : Type} (m : M unit) (k : M B) (l : list string) (r : Run) :
  m r = (Ok tt, emit l r) -> bindM m (fun _ => k) r = k (emit l r).
Proof. intro H. exact (bindM_ok m (fun _ => k) r (emit l r) tt H). Qed.

Lemma both_emit (m k : M unit) (l1 l2 : list string) (r : Run) :
  m r = (Ok tt, emit l1 r) ->
  k (emit l1 r) = (Ok tt, emit l2 (emit l1 r)) ->
  bindM m (fun _ => k) r = (Ok tt, emit (l1 ++ l2) r).
Proof.
  intros H1 H2. rewrite (then_emit m k l1 r H1), H2. now rewrite emit_emit.
Qed.

Lemma lift_bind {A B : Type} (x : result A) (k : A -> M B) (r : Run) :
  bindM (lift x) k r = match x with Ok a => k a r | Raise e => (Raise e, r) end.
Proof. unfold bindM, lift. now destruct x. Qed.

Lemma print_bind {B : Type} (line : string) (k : M B) (r : Run) :
  bindM (print line) (fun _ => k) r = k (emit [line] r).
Proof. reflexivity. Qed.

(** A loop whose body prints one chunk of lines for each item. *)
Lemma forM_emit {A : Type} (body : A -> M unit) (chunk : A -> list string) (l : list A) :
  (forall a r, In a l -> body a r = (Ok tt, emit (chunk a) r)) ->
  forall r, forM l body r = (Ok tt, emit (flat_map chunk l) r).
Proof.
  induction l as [|a l IH]; intros Hbody r.
  - cbn. now rewrite emit_nil.
  - cbn [forM flat_map].
    apply both_emit.
    + apply Hbody. now left.
    + apply IH. intros b r' Hb. apply Hbody. now right.
Qed.

(** ** The console report *)

Section ReportFacts.

Variable float_repr : Q -> string.
Variable container_repr : value -> string.
Variable title : string -> string.

Ltac run_steps :=
  repeat first
    [ rewrite print_bind
    | rewrite lift_bind
    | rewrite emit_emit
    | rewrite print_run ].

Lemma print_heading_run (data : dict) (stamp overall : value) (r : Run) :
  dict_get data "timestamp" = Some stamp ->
  dict_get data "overall_health" = Some overall ->
  print_heading float_repr container_repr data r
  = (Ok tt,
     emit [ equals_rule;
            ("SYSTEM HEALTH REPORT - " ++ str float_repr container_repr stamp)%string;
            equals_rule;
            (newline ++ "OVERALL HEALTH: " ++ str float_repr container_repr overall)%string ]
          r).
Proof.
  intros Hs Ho. unfold print_heading, field, subscript.
  rewrite Hs, Ho. run_steps. reflexivity.
Qed.

Lemma flat_map_singleton_length {A B : Type} (g : A -> B) (l : list A) :
  List.length (flat_map (fun a => [g a]) l) = List.length l.
Proof. induction l as [|a l IH]; [reflexivity|]. cbn. now rewrite IH. Qed.

Lemma print_system_run (data : dict) (info : dict) (r : Run) :
  dict_get data "system" = Some (VDict info) ->
  exists lines,
    print_system float_repr container_repr title data r = (Ok tt, emit lines r) /\
    List.length lines = 3 + List.length info.
Proof.
  intro H. unfold print_system, field, subscript. rewrite H.
  run_steps. cbn [dict_items].
  rewrite (forM_emit _ (fun kv =>
    [("  " ++ title (replace_char "_" " " (fst kv)) ++ ": "
          ++ str float_repr container_repr (snd kv))%string]))
    by (intros; apply print_run).
  run_steps. eexists. split; [reflexivity|].
  rewrite length_app, flat_map_singleton_length. reflexivity.
Qed.

Lemma print_cpu_run (env : Provider) (data : dict) (cpu : value) (r : Run) :
  get_cpu_info env = Ok cpu ->
  dict_get data "cpu" = Some cpu ->
  exists lines,
    print_cpu float_repr container_repr data r = (Ok tt, emit lines r) /\
    List.length lines = 6 /\
    nth_error lines 1 = Some ("CPU - " ++ _get_status (cpu_percent_status env))%string.
Proof.
  unfold get_cpu_info. destruct (cpu_freq_entry env) as [f|e]; [|discriminate].
  cbn [bind]. intros [= <-] H.
  unfold print_cpu, field2, subscript. rewrite H. cbn [dict_get String.eqb Ascii.eqb Bool.eqb bind subscript get_memory_info].
  run_steps. eexists. split; [reflexivity|]. split; reflexivity.
Qed.

Lemma print_memory_run (env : Provider) (data : dict) (r : Run) :
  dict_get data "memory" = Some (get_memory_info env) ->
  exists lines,
    print_memory float_repr container_repr data r = (Ok tt, emit lines r) /\
    List.length lines = 7 /\
    nth_error lines 1
    = Some ("MEMORY - " ++ _get_status (vm_percent (virtual_memory env)))%string.
Proof.
  intro H. unfold print_memory, field2, subscript. rewrite H. cbn [dict_get String.eqb Ascii.eqb Bool.eqb bind subscript get_memory_info].
  run_steps. eexists. split; [reflexivity|]. split; reflexivity.
Qed.

Lemma print_disk_entry_run (pu : sdiskpart * sdiskusage) (r : Run) :
  exists l1 l2,
    print_disk_entry float_repr container_repr (entry_of pu) r = (Ok tt, emit [l1; l2] r).
Proof.
  unfold print_disk_entry, entry_of, disk_entry. cbn [dict_get String.eqb Ascii.eqb Bool.eqb bind subscript get_memory_info].
  run_steps. eexists. eexists. reflexivity.
Qed.

Lemma print_disk_loop (pus : list (sdiskpart * sdiskusage)) :
  forall r, exists lines,
    forM (map entry_of pus) (print_disk_entry float_repr container_repr) r
    = (Ok tt, emit lines r) /\
    List.length lines = 2 * List.length pus.
Proof.
  induction pus as [|pu pus IH]; intro r.
  - exists []. cbn. now rewrite emit_nil.
  - destruct (print_disk_entry_run pu r) as (l1 & l2 & H1).
    destruct (IH (emit [l1; l2] r)) as (rest & H2 & Hlen).
    exists ([l1; l2] ++ rest). split.
    + cbn [map forM]. apply both_emit; assumption.
    + cbn [List.length app]. rewrite Hlen. lia.
Qed.

Lemma print_disk_run (data : dict) (pus : list (sdiskpart * sdiskusage)) (r : Run) :
  dict_get data "disk" = Some (VList (map entry_of pus)) ->
  exists lines,
    print_disk float_repr container_repr data r = (Ok tt, emit lines r) /\
    List.length lines = 3 + 2 * List.length pus.
Proof.
  intro H. unfold print_disk, field, subscript. rewrite H.
  run_steps. cbn [iterate].
  match goal with |- context [forM _ _ ?r0] =>
    destruct (print_disk_loop pus r0) as (lines & Hrun & Hlen) end.
  rewrite Hrun. run_steps. eexists. split; [reflexivity|].
  rewrite !length_app, Hlen. reflexivity.
Qed.

Lemma print_network_run (env : Provider) (data : dict) (network : value) (r : Run) :
  get_network_info env = Ok network ->
  dict_get data "network" = Some network ->
  exists lines,
    print_network float_repr container_repr data r = (Ok tt, emit lines r) /\
    List.length lines = 9.
Proof.
  unfold get_network_info. destruct (net_io_counters env) as [net_io|]; [|discriminate].
  intros [= <-] H.
  unfold print_network, field2, subscript. rewrite H. cbn [dict_get String.eqb Ascii.eqb Bool.eqb bind subscript get_memory_info].
  run_steps. eexists. split; reflexivity.
Qed.

Lemma print_process_run (proc : procinfo) (v : value) (r : Run) :
  process_entry proc = Ok v ->
  exists line, print_process float_repr container_repr v r = (Ok tt, emit [line] r).
Proof.
  unfold process_entry. destruct (memory_percent proc); [|discriminate].
  intros [= <-]. unfold print_process. cbn [dict_get String.eqb Ascii.eqb Bool.eqb bind subscript get_memory_info]. run_steps. eexists. reflexivity.
Qed.

Lemma mapM_length {A B : Type} (f : A -> result B) (l : list A) (out : list B) :
  mapM f l = Ok out -> List.length out = List.length l.
Proof.
  revert out. induction l as [|a l IH]; intros out H; cbn in H.
  - now injection H as <-.
  - destruct (f a); [|discriminate]. cbn in H.
    destruct (mapM f l) as [bs|e]; [|discriminate]. cbn in H.
    injection H as <-. cbn. now rewrite (IH bs eq_refl).
Qed.

Lemma print_process_loop (procs : list procinfo) (vs : list value) :
  mapM process_entry procs = Ok vs ->
  forall r, exists lines,
    forM vs (print_process float_repr container_repr) r = (Ok tt, emit lines r) /\
    List.length lines = List.length vs.
Proof.
  revert vs. induction procs as [|p procs IH]; intros vs H r; cbn in H.
  - injection H as <-. exists []. cbn. now rewrite emit_nil.
  - destruct (process_entry p) as [v|e] eqn:Hp; [|discriminate]. cbn in H.
    destruct (mapM process_entry procs) as [vs'|e]; [|discriminate]. cbn in H.
    injection H as <-.
    destruct (print_process_run p v r Hp) as (line & H1).
    destruct (IH vs' eq_refl (emit [line] r)) as (rest & H2 & Hlen).
    exists ([line] ++ rest). split.
    + cbn [forM]. apply both_emit; assumption.
    + cbn. now rewrite Hlen.
Qed.

Lemma print_processes_run (env : Provider) (data : dict) (procs : value) (r : Run) :
  get_process_info env = Ok procs ->
  dict_get data "processes" = Some procs ->
  exists lines,
    print_processes float_repr container_repr data r = (Ok tt, emit lines r) /\
    List.length lines = 4 + List.length (firstn 5 (sorted_desc (process_iter env))).
Proof.
  unfold get_process_info.
  destruct (mapM process_entry (firstn 5 (sorted_desc (process_iter env))))
    as [vs|e] eqn:Hvs; [|discriminate].
  cbn [bind]. intros [= <-] H.
  unfold print_processes, field2, subscript. rewrite H. cbn [dict_get String.eqb Ascii.eqb Bool.eqb bind].
  run_steps. cbn [iterate].
  match goal with |- context [bindM (forM _ _) _ ?r0] =>
    destruct (print_process_loop _ vs Hvs r0) as (lines & Hrun & Hlen) end.
  rewrite (then_emit _ _ lines _ Hrun). run_steps.
  eexists. split; [reflexivity|].
  rewrite !length_app, Hlen, (mapM_length _ _ _ Hvs). cbn [List.length]. lia.
Qed.

End ReportFacts.

(** ** The report and the program after a pass *)

Lemma insert_desc_length (p : procinfo) (l : list procinfo) :
  List.length (insert_desc p l) = S (List.length l).
Proof.
  induction l as [|q l IH]; [reflexivity|]. cbn.
  destruct (Qltb (sort_key p) (sort_key q)); cbn; [now rewrite IH | reflexivity].
Qed.

Lemma sorted_desc_length (l : list procinfo) :
  List.length (sorted_desc l) = List.length l.
Proof.
  induction l as [|p l IH]; [reflexivity|].
  unfold sorted_desc in *. cbn. now rewrite insert_desc_length, IH.
Qed.

Section ProgramFacts.

Variable float_repr : Q -> string.
Variable container_repr : value -> string.
Variable title : string -> string.
Variable exn_text : exn -> string.

(** The report of the data a pass has stored. *)
Lemma print_report_run (env : Provider) (r : Run)
    (now : string) (cpu network procs : value) (disk : list value) (overall : string) :
  get_cpu_info env = Ok cpu ->
  get_disk_info env = Ok disk ->
  get_network_info env = Ok network ->
  get_process_info env = Ok procs ->
  health_data (self r)
  = [ ("timestamp", VStr now); ("system", get_system_info env); ("cpu", cpu);
      ("memory", get_memory_info env); ("disk", VList disk);
      ("network", network); ("processes", procs);
      ("overall_health", VStr overall) ] ->
  exists lines,
    print_report float_repr container_repr title r = (Ok tt, emit lines r) /\
    firstn 4 lines
    = [ equals_rule; ("SYSTEM HEALTH REPORT - " ++ now)%string; equals_rule;
        (newline ++ "OVERALL HEALTH: " ++ overall)%string ] /\
    List.length lines
    = 42 + 2 * List.length (readable (disk_partitions env))
      + Nat.min 5 (List.length (process_iter env)).
Proof.
  intros Hcpu Hdisk Hnet Hprocs Hdata.
  pose proof (disk_loop_returns _ _ _ Hdisk) as Hd. cbn [app] in Hd. subst disk.
  unfold print_report. unfold bindM at 1. unfold load. rewrite Hdata.
  set (data := [ ("timestamp", VStr now); ("system", get_system_info env); ("cpu", cpu);
                 ("memory", get_memory_info env);
                 ("disk", VList (map entry_of (readable (disk_partitions env))));
                 ("network", network); ("processes", procs);
                 ("overall_health", VStr overall) ]).
  pose proof (print_heading_run float_repr container_repr data (VStr now) (VStr overall) r
                eq_refl eq_refl) as H1.
  cbn [str] in H1.
  match type of H1 with _ = (_, emit ?l _) => set (l1 := l) in * end.
  destruct (print_system_run float_repr container_repr title data _ (emit l1 r) eq_refl)
    as (l2 & H2 & Hl2).
  rewrite emit_emit in H2.
  destruct (print_cpu_run float_repr container_repr env data cpu (emit (l1 ++ l2) r)
              Hcpu eq_refl) as (l3 & H3 & Hl3 & _).
  rewrite emit_emit in H3.
  destruct (print_memory_run float_repr container_repr env data (emit ((l1 ++ l2) ++ l3) r)
              eq_refl) as (l4 & H4 & Hl4 & _).
  rewrite emit_emit in H4.
  destruct (print_disk_run float_repr container_repr data (readable (disk_partitions env))
              (emit (((l1 ++ l2) ++ l3) ++ l4) r) eq_refl) as (l5 & H5 & Hl5).
  rewrite emit_emit in H5.
  destruct (print_network_run float_repr container_repr env data network
              (emit ((((l1 ++ l2) ++ l3) ++ l4) ++ l5) r) Hnet eq_refl)
    as (l6 & H6 & Hl6).
  rewrite emit_emit in H6.
  destruct (print_processes_run float_repr container_repr env data procs
              (emit (((((l1 ++ l2) ++ l3) ++ l4) ++ l5) ++ l6) r) Hprocs eq_refl)
    as (l7 & H7 & Hl7).
  rewrite emit_emit in H7.
  exists ((((((l1 ++ l2) ++ l3) ++ l4) ++ l5) ++ l6) ++ l7).
  split; [|split].
  - rewrite (then_emit _ _ l1 r H1).
    rewrite (bindM_ok _ _ _ _ tt H2).
    rewrite (bindM_ok _ _ _ _ tt H3).
    rewrite (bindM_ok _ _ _ _ tt H4).
    rewrite (bindM_ok _ _ _ _ tt H5).
    rewrite (bindM_ok _ _ _ _ tt H6).
    exact H7.
  - rewrite <- !app_assoc. reflexivity.
  - rewrite !length_app, Hl2, Hl3, Hl4, Hl5, Hl6, Hl7.
    rewrite length_firstn, sorted_desc_length. subst l1. cbn [List.length get_system_info].
    lia.
Qed.

Lemma alert_run (r : Run) (o : StatusLevel) :
  dict_get (health_data (self r)) "overall_health" = Some (status_value o) ->
  alert r = (Ok tt, emit [alert_line o] r).
Proof.
  intro H. unfold alert. unfold bindM at 1. unfold load, field, subscript.
  rewrite lift_bind, H. destruct o; cbn; reflexivity.
Qed.

End ProgramFacts.

(** What a pass leaves outside the health data, whatever its outcome:
    one more line of output, the same files, the same timestamp. *)
Lemma collect_frame (env : Provider) (r : Run) :
  stdout (snd (collect_all_metrics env r)) = stdout r ++ [opening_line] /\
  files (snd (collect_all_metrics env r)) = files r /\
  timestamp (self (snd (collect_all_metrics env r))) = timestamp (self r).
Proof.
  destruct r as [[ts d] out fs]. rewrite collect_all_metrics_run. cbv zeta.
  destruct (get_cpu_info env); [|repeat split].
  destruct (get_disk_info env); [|repeat split].
  destruct (get_network_info env); [|repeat split].
  destruct (get_process_info env); [|repeat split].
  destruct (get_overall_health _); repeat split.
Qed.

Section Program.

Variable float_repr : Q -> string.
Variable container_repr : value -> string.
Variable title : string -> string.
Variable exn_text : exn -> string.

(** X1: after a pass that returns, the report is printed without an
    exception: every key the report reads has been stored by the
    collectors. It leaves the checker and the files as they are; its first
    four lines show the timestamp and the overall status of the health
    data; it has 42 lines, two more for each readable partition and one
    more for each retained process. *)
Theorem report_after_pass (env : Provider) (r : Run) (hd : dict) (r1 : Run) :
  in_order (health_data (self r)) ->
  collect_all_metrics env r = (Ok hd, r1) ->
  exists overall lines,
    dict_get hd "overall_health" = Some (VStr overall) /\
    print_report float_repr container_repr title r1 = (Ok tt, emit lines r1) /\
    firstn 4 lines
    = [ equals_rule;
        ("SYSTEM HEALTH REPORT - " ++ timestamp (self r))%string;
        equals_rule;
        (newline ++ "OVERALL HEALTH: " ++ overall)%string ] /\
    List.length lines
    = 42 + 2 * List.length (readable (disk_partitions env))
      + Nat.min 5 (List.length (process_iter env)).
Proof.
  intros Hord H.
  destruct (collect_returns env r hd r1 Hord H)
    as (cpu & disk & network & procs & overall
        & Hcpu & Hdisk & Hnet & Hprocs & _ & Hhd & Hself).
  assert (Hdata : health_data (self r1) = hd) by now rewrite Hself.
  rewrite Hhd in Hdata.
  destruct (print_report_run float_repr container_repr title env r1 _ cpu network procs
              disk overall Hcpu Hdisk Hnet Hprocs Hdata)
    as (lines & Hrun & Hfirst & Hlen).
  exists overall, lines. rewrite Hhd. repeat split; assumption.
Qed.

End Program.

Lemma report_after_pass_witness :
  exists overall lines,
    dict_get (collected (host 70 50 [(part "/dev/sda1" "/", Ok (usage_at 40))])
                "2024-01-01T00:00:00") "overall_health" = Some (VStr overall) /\
    print_report two_places no_container no_title
      (snd (collect_all_metrics (host 70 50 [(part "/dev/sda1" "/", Ok (usage_at 40))])
              (fresh "2024-01-01T00:00:00")))
    = (Ok tt,
       emit lines
         (snd (collect_all_metrics (host 70 50 [(part "/dev/sda1" "/", Ok (usage_at 40))])
                 (fresh "2024-01-01T00:00:00")))) /\
    firstn 4 lines
    = [ equals_rule;
        ("SYSTEM HEALTH REPORT - " ++ timestamp (self (fresh "2024-01-01T00:00:00")))%string;
        equals_rule;
        (newline ++ "OVERALL HEALTH: " ++ overall)%string ] /\
    List.length lines
    = 42 + 2 * List.length
               (readable (disk_partitions
                            (host 70 50 [(part "/dev/sda1" "/", Ok (usage_at 40))])))
      + Nat.min 5 (List.length
                     (process_iter (host 70 50 [(part "/dev/sda1" "/", Ok (usage_at 40))]))).
Proof.
  apply (report_after_pass two_places no_container no_title
           (host 70 50 [(part "/dev/sda1" "/", Ok (usage_at 40))])
           (fresh "2024-01-01T00:00:00")
           (collected (host 70 50 [(part "/dev/sda1" "/", Ok (usage_at 40))])
              "2024-01-01T00:00:00")).
  - exact in_order_nil.
  - vm_compute. reflexivity.
Defined.


Section ProgramRuns.

Variable float_repr : Q -> string.
Variable container_repr : value -> string.
Variable title : string -> string.
Variable exn_text : exn -> string.

Lemma main_starts (env : Provider) (now : string) (r : Run) :
  main float_repr container_repr title env now r
  = bindM (collect_all_metrics env)
      (fun _ =>
         print_report float_repr container_repr title ;;
         export_to_json float_repr env default_filename ;;
         alert)
      (started now r).
Proof. reflexivity. Qed.

Lemma export_to_json_blocked (env : Provider) (filename : string) (r : Run) :
  can_write env filename = false ->
  export_to_json float_repr env filename r = (Raise OSError, r).
Proof. intro H. unfold export_to_json. now rewrite H. Qed.

(** X2: when the pass of [main] returns and the export file can be
    opened, [main] returns; after the pass it prints the report, the line
    of the export and, last, the alert that belongs to the overall status
    of the health data: the ALERT line for CRITICAL, the WARNING line for
    WARNING, the OK line for HEALTHY; the file holds the JSON text of the
    health data. *)
Theorem main_ends_with_alert
    (env : Provider) (now : string) (r : Run) (hd : dict) (r1 : Run) :
  collect_all_metrics env (started now r) = (Ok hd, r1) ->
  can_write env default_filename = true ->
  exists o lines r',
    main float_repr container_repr title env now r = (Ok tt, r') /\
    dict_get hd "overall_health" = Some (status_value o) /\
    print_report float_repr container_repr title r1 = (Ok tt, emit lines r1) /\
    stdout r' = stdout r1 ++ lines ++ [exported_line default_filename; alert_line o] /\
    files r' default_filename = Some (dump float_repr hd) /\
    health_data (self r') = hd.
Proof.
  intros H Hw.
  assert (Hord : in_order (health_data (self (started now r)))) by exact in_order_nil.
  destruct (collect_returns env _ hd r1 Hord H)
    as (cpu & disk & network & procs & overall
        & Hcpu & Hdisk & Hnet & Hprocs & Hov & Hhd & Hself).
  destruct (get_overall_health_name hd overall Hov) as [o ->].
  assert (Hdata : health_data (self r1) = hd) by now rewrite Hself.
  pose proof Hdata as Hdata'. rewrite Hhd in Hdata'.
  destruct (print_report_run float_repr container_repr title env r1 _ cpu network procs
              disk _ Hcpu Hdisk Hnet Hprocs Hdata') as (lines & Hrun & _ & _).
  exists o, lines. eexists.
  split; [|split; [|split; [exact Hrun|]]].
  - rewrite main_starts, (bindM_ok _ _ _ _ _ H).
    rewrite (then_emit _ _ lines r1 Hrun).
    rewrite (bindM_ok _ _ _ _ tt (export_to_json_run float_repr env default_filename _ Hw)).
    apply alert_run. cbn [self emit health_data]. rewrite Hdata, Hhd. reflexivity.
  - rewrite Hhd. reflexivity.
  - cbn [emit stdout self files]. rewrite String.eqb_refl, Hdata.
    rewrite <- !app_assoc. repeat split.
Qed.

(** X3: when a collector raises in the pass of [main], [main] raises the
    same exception at once: the opening line of the pass is all it has
    printed, no report, no export line and no alert, and no file is
    written. The script then prints the error line and ends normally. *)
Theorem failed_pass_ends_the_program
    (env : Provider) (now : string) (r : Run) (e : exn) (r1 : Run) :
  collect_all_metrics env (started now r) = (Raise e, r1) ->
  main float_repr container_repr title env now r = (Raise e, r1) /\
  stdout r1 = stdout r ++ [opening_line] /\
  files r1 = files r /\
  script float_repr container_repr title exn_text env now r
  = (Ok tt, emit [(newline ++ "Error during health check: " ++ exn_text e)%string] r1).
Proof.
  intro H.
  assert (Hmain : main float_repr container_repr title env now r = (Raise e, r1)).
  { rewrite main_starts. now apply bindM_raise. }
  destruct (collect_frame env (started now r)) as (Hout & Hfiles & _).
  rewrite H in Hout, Hfiles. cbn [snd started stdout files] in Hout, Hfiles.
  repeat split; try assumption.
  unfold script. rewrite Hmain. reflexivity.
Qed.

(** X4: when the pass of [main] returns but the export file cannot be
    opened, [main] raises [OSError] after the report: what it has printed
    is the output of the pass and the report, with no export line and no
    alert, whatever the overall status; no file is written. The script
    adds the error line and ends normally. *)
Theorem blocked_export_drops_the_alert
    (env : Provider) (now : string) (r : Run) (hd : dict) (r1 : Run) :
  collect_all_metrics env (started now r) = (Ok hd, r1) ->
  can_write env default_filename = false ->
  exists lines,
    print_report float_repr container_repr title r1 = (Ok tt, emit lines r1) /\
    main float_repr container_repr title env now r = (Raise OSError, emit lines r1) /\
    stdout (emit lines r1) = stdout r ++ [opening_line] ++ lines /\
    files (emit lines r1) = files r /\
    script float_repr container_repr title exn_text env now r
    = (Ok tt,
       emit (lines ++ [(newline ++ "Error during health check: "
                                ++ exn_text OSError)%string]) r1).
Proof.
  intros H Hw.
  assert (Hord : in_order (health_data (self (started now r)))) by exact in_order_nil.
  destruct (collect_returns env _ hd r1 Hord H)
    as (cpu & disk & network & procs & overall
        & Hcpu & Hdisk & Hnet & Hprocs & Hov & Hhd & Hself).
  assert (Hdata : health_data (self r1) = hd) by now rewrite Hself.
  rewrite Hhd in Hdata.
  destruct (print_report_run float_repr container_repr title env r1 _ cpu network procs
              disk _ Hcpu Hdisk Hnet Hprocs Hdata) as (lines & Hrun & _ & _).
  exists lines.
  assert (Hmain : main float_repr container_repr title env now r
                  = (Raise OSError, emit lines r1)).
  { rewrite main_starts, (bindM_ok _ _ _ _ _ H).
    rewrite (then_emit _ _ lines r1 Hrun).
    apply bindM_raise. now apply export_to_json_blocked. }
  destruct (collect_frame env (started now r)) as (Hout & Hfiles & _).
  rewrite H in Hout, Hfiles. cbn [snd started stdout files] in Hout, Hfiles.
  split; [exact Hrun|]. split; [exact Hmain|].
  split; [cbn [emit stdout]; rewrite Hout, <- app_assoc; reflexivity|].
  split; [cbn [emit files]; exact Hfiles|].
  unfold script. rewrite Hmain, print_run, emit_emit. reflexivity.
Qed.

End ProgramRuns.

Lemma main_ends_with_alert_witness :
  exists o lines r',
    main two_places no_container no_title
      (host 70 50 [(part "/dev/sda1" "/", Ok (usage_at 40))]) "2024-01-01T00:00:00"
      (fresh "1999-12-31T23:59:59")
    = (Ok tt, r') /\
    dict_get (collected (host 70 50 [(part "/dev/sda1" "/", Ok (usage_at 40))])
                "2024-01-01T00:00:00") "overall_health" = Some (status_value o) /\
    print_report two_places no_container no_title
      (snd (collect_all_metrics (host 70 50 [(part "/dev/sda1" "/", Ok (usage_at 40))])
              (fresh "2024-01-01T00:00:00")))
    = (Ok tt,
       emit lines
         (snd (collect_all_metrics (host 70 50 [(part "/dev/sda1" "/", Ok (usage_at 40))])
                 (fresh "2024-01-01T00:00:00")))) /\
    stdout r'
    = stdout (snd (collect_all_metrics
                     (host 70 50 [(part "/dev/sda1" "/", Ok (usage_at 40))])
                     (fresh "2024-01-01T00:00:00")))
      ++ lines ++ [exported_line default_filename; alert_line o] /\
    files r' default_filename
    = Some (dump two_places
              (collected (host 70 50 [(part "/dev/sda1" "/", Ok (usage_at 40))])
                 "2024-01-01T00:00:00")) /\
    health_data (self r')
    = collected (host 70 50 [(part "/dev/sda1" "/", Ok (usage_at 40))])
        "2024-01-01T00:00:00".
Proof.
  apply (main_ends_with_alert two_places no_container no_title
           (host 70 50 [(part "/dev/sda1" "/", Ok (usage_at 40))]) "2024-01-01T00:00:00"
           (fresh "1999-12-31T23:59:59")
           (collected (host 70 50 [(part "/dev/sda1" "/", Ok (usage_at 40))])
              "2024-01-01T00:00:00")
           (snd (collect_all_metrics (host 70 50 [(part "/dev/sda1" "/", Ok (usage_at 40))])
                   (fresh "2024-01-01T00:00:00")))).
  - vm_compute. reflexivity.
  - reflexivity.
Defined.

Lemma failed_pass_ends_the_program_witness :
  main two_places no_container no_title broken_host noon (fresh noon)
  = (Raise OSError, snd (collect_all_metrics broken_host (fresh noon))) /\
  stdout (snd (collect_all_metrics broken_host (fresh noon)))
  = stdout (fresh noon) ++ [opening_line] /\
  files (snd (collect_all_metrics broken_host (fresh noon))) = files (fresh noon) /\
  script two_places no_container no_title exn_class broken_host noon (fresh noon)
  = (Ok tt,
     emit [(newline ++ "Error during health check: " ++ exn_class OSError)%string]
       (snd (collect_all_metrics broken_host (fresh noon)))).
Proof.
  apply (failed_pass_ends_the_program two_places no_container no_title exn_class
           broken_host noon (fresh noon) OSError
           (snd (collect_all_metrics broken_host (fresh noon)))).
  vm_compute. reflexivity.
Defined.

Lemma blocked_export_drops_the_alert_witness :
  exists lines,
    print_report two_places no_container no_title
      (snd (collect_all_metrics (read_only web_host) (fresh noon)))
    = (Ok tt, emit lines (snd (collect_all_metrics (read_only web_host) (fresh noon)))) /\
    main two_places no_container no_title (read_only web_host) noon (fresh noon)
    = (Raise OSError,
       emit lines (snd (collect_all_metrics (read_only web_host) (fresh noon)))) /\
    stdout (emit lines (snd (collect_all_metrics (read_only web_host) (fresh noon))))
    = stdout (fresh noon) ++ [opening_line] ++ lines /\
    files (emit lines (snd (collect_all_metrics (read_only web_host) (fresh noon))))
    = files (fresh noon) /\
    script two_places no_container no_title exn_class (read_only web_host) noon (fresh noon)
    = (Ok tt,
       emit (lines ++ [(newline ++ "Error during health check: "
                                ++ exn_class OSError)%string])
         (snd (collect_all_metrics (read_only web_host) (fresh noon)))).
Proof.
  apply (blocked_export_drops_the_alert two_places no_container no_title exn_class
           (read_only web_host) noon (fresh noon)
           (collected (read_only web_host) noon)
           (snd (collect_all_metrics (read_only web_host) (fresh noon)))).
  - vm_compute. reflexivity.
  - reflexivity.
Defined.

(** ** Passes that raise, and passes repeated *)

Lemma dict_get_set_same (d : dict) (k : string) (v : value) :
  dict_get (dict_set d k v) k = Some v.
Proof.
  induction d as [|[k' v'] d IH]; cbn.
  - now rewrite String.eqb_refl.
  - destruct (String.eqb k' k) eqn:E; cbn; rewrite E; [reflexivity | exact IH].
Qed.

Lemma dict_get_set_other (d : dict) (k k' : string) (v : value) :
  k <> k' -> dict_get (dict_set d k v) k' = dict_get d k'.
Proof.
  intro Hne. induction d as [|[k0 v0] d IH]; cbn.
  - destruct (String.eqb k k') eqn:E; [|reflexivity].
    apply String.eqb_eq in E. contradiction.
  - destruct (String.eqb k0 k) eqn:E; cbn.
    + apply String.eqb_eq in E. subst k0.
      destruct (String.eqb k k') eqn:E'; [|reflexivity].
      apply String.eqb_eq in E'. contradiction.
    + now rewrite IH.
Qed.

Ltac lookup :=
  repeat first
    [ rewrite dict_get_set_same
    | rewrite dict_get_set_other by discriminate ].

(** Once the cpu and disk collectors have returned, the aggregation of
    the pass returns too, whatever the checker held before and whatever
    the network and process entries are. *)
Lemma pass_aggregation_returns
    (env : Provider) (d : dict) (now : value) (cpu network procs : value)
    (disk : list value) :
  get_cpu_info env = Ok cpu ->
  get_disk_info env = Ok disk ->
  exists overall,
    get_overall_health
      (dict_set (dict_set (dict_set (dict_set (dict_set (dict_set (dict_set d
         "timestamp" now) "system" (get_system_info env)) "cpu" cpu)
         "memory" (get_memory_info env)) "disk" (VList disk))
         "network" network) "processes" procs)
    = Ok overall.
Proof.
  intros Hcpu Hdisk.
  pose proof (disk_loop_returns _ _ _ Hdisk) as Hd. cbn [app] in Hd. subst disk.
  eexists.
  apply (get_overall_health_levels _
           (classify (cpu_percent_status env))
           (classify (vm_percent (virtual_memory env)))
           (map level_of (readable (disk_partitions env)))).
  - unfold cpu_status, subscript at 1. lookup. cbn [bind].
    now apply cpu_info_status.
  - unfold memory_status, subscript at 1. lookup. cbn [bind].
    apply memory_info_status.
  - unfold disk_statuses, subscript at 1. lookup. cbn [bind iterate].
    apply disk_entries_statuses.
Qed.

(** X5: a pass returns exactly when its four fallible collectors
    return; the aggregation at its end never raises. When the pass raises,
    the exception is the one of the first collector that raises, in the
    order cpu, disk, network, processes. This holds whatever the checker
    held before the pass. *)
Theorem pass_raises_with_a_collector (env : Provider) (r : Run) :
  ((exists hd, fst (collect_all_metrics env r) = Ok hd) <->
   (exists cpu disk network procs,
      get_cpu_info env = Ok cpu /\
      get_disk_info env = Ok disk /\
      get_network_info env = Ok network /\
      get_process_info env = Ok procs)) /\
  (forall e,
     fst (collect_all_metrics env r) = Raise e <->
     get_cpu_info env = Raise e \/
     ((exists cpu, get_cpu_info env = Ok cpu) /\ get_disk_info env = Raise e) \/
     ((exists cpu, get_cpu_info env = Ok cpu) /\
      (exists disk, get_disk_info env = Ok disk) /\
      get_network_info env = Raise e) \/
     ((exists cpu, get_cpu_info env = Ok cpu) /\
      (exists disk, get_disk_info env = Ok disk) /\
      (exists network, get_network_info env = Ok network) /\
      get_process_info env = Raise e)).
Proof.
  destruct r as [[ts d] out fs]. rewrite collect_all_metrics_run. cbv zeta.
  destruct (get_cpu_info env) as [cpu|e1] eqn:Hcpu.
  2:{ split.
      - split; [intros [hd H]; discriminate H
               | intros (c & _ & _ & _ & H & _); discriminate H].
      - intro e. cbn [fst]. split.
        + intros [= ->]. now left.
        + intros [H|[[[c H] _]|[[[c H] _]|[[c H] _]]]];
            [injection H as ->; reflexivity | discriminate H ..]. }
  destruct (get_disk_info env) as [disk|e2] eqn:Hdisk.
  2:{ split.
      - split; [intros [hd H]; discriminate H
               | intros (c & k & _ & _ & _ & H & _); discriminate H].
      - intro e. cbn [fst]. split.
        + intros [= ->]. right; left. split; [now exists cpu | reflexivity].
        + intros [H|[[_ H]|[[_ [[k H] _]]|[_ [[k H] _]]]]];
            [discriminate H | injection H as ->; reflexivity | discriminate H ..]. }
  destruct (get_network_info env) as [network|e3] eqn:Hnet.
  2:{ split.
      - split; [intros [hd H]; discriminate H
               | intros (c & k & n & _ & _ & _ & H & _); discriminate H].
      - intro e. cbn [fst]. split.
        + intros [= ->]. right; right; left.
          split; [now exists cpu|]. split; [now exists disk | reflexivity].
        + intros [H|[[_ H]|[[_ [_ H]]|[_ [_ [[n H] _]]]]]];
            [discriminate H | discriminate H | injection H as ->; reflexivity
            | discriminate H]. }
  destruct (get_process_info env) as [procs|e4] eqn:Hprocs.
  2:{ split.
      - split; [intros [hd H]; discriminate H
               | intros (c & k & n & p & _ & _ & _ & H); discriminate H].
      - intro e. cbn [fst]. split.
        + intros [= ->]. right; right; right.
          split; [now exists cpu|]. split; [now exists disk|].
          split; [now exists network | reflexivity].
        + intros [H|[[_ H]|[[_ [_ H]]|[_ [_ [_ H]]]]]];
            [discriminate H | discriminate H | discriminate H
            | injection H as ->; reflexivity]. }
  destruct (pass_aggregation_returns env d (VStr ts) cpu network procs disk Hcpu Hdisk)
    as [overall Hov].
  rewrite Hov. cbn [fst]. split.
  - split; [intros _; now exists cpu, disk, network, procs
           | intros _; eexists; reflexivity].
  - intro e. split; [intro H; discriminate H|].
    intros [H|[[_ H]|[[_ [_ H]]|[_ [_ [_ H]]]]]]; discriminate H.
Qed.

(** On a host without network interfaces the counters are missing: the
    pass raises [AttributeError] once the cpu and disk collectors have
    returned, with the process table still unread. *)
Lemma pass_raises_with_a_collector_witness :
  ((exists hd, fst (collect_all_metrics (without_interfaces web_host) (fresh noon)) = Ok hd)
   <->
   (exists cpu disk network procs,
      get_cpu_info (without_interfaces web_host) = Ok cpu /\
      get_disk_info (without_interfaces web_host) = Ok disk /\
      get_network_info (without_interfaces web_host) = Ok network /\
      get_process_info (without_interfaces web_host) = Ok procs)) /\
  fst (collect_all_metrics (without_interfaces web_host) (fresh noon))
  = Raise AttributeError.
Proof.
  destruct (pass_raises_with_a_collector (without_interfaces web_host) (fresh noon))
    as [Hreturns Hraises].
  split; [exact Hreturns|].
  apply Hraises. right; right; left.
  split; [eexists; reflexivity|]. split; [eexists; reflexivity | reflexivity].
Defined.

(** What a pass that raises has stored and has left alone. *)
Lemma failed_pass_data (env : Provider) (r : Run) (e : exn) (r' : Run) :
  collect_all_metrics env r = (Raise e, r') ->
  dict_get (health_data (self r')) "overall_health"
  = dict_get (health_data (self r)) "overall_health" /\
  dict_get (health_data (self r')) "timestamp" = Some (VStr (timestamp (self r))) /\
  dict_get (health_data (self r')) "system" = Some (get_system_info env).
Proof.
  destruct r as [[ts d] out fs]. rewrite collect_all_metrics_run. cbv zeta.
  destruct (get_cpu_info env) as [cpu|e1] eqn:Hcpu.
  2:{ intros [= <- <-]. cbn [self health_data timestamp]. lookup. repeat split. }
  destruct (get_disk_info env) as [disk|e2] eqn:Hdisk.
  2:{ intros [= <- <-]. cbn [self health_data timestamp]. lookup. repeat split. }
  destruct (get_network_info env) as [network|e3].
  2:{ intros [= <- <-]. cbn [self health_data timestamp]. lookup. repeat split. }
  destruct (get_process_info env) as [procs|e4].
  2:{ intros [= <- <-]. cbn [self health_data timestamp]. lookup. repeat split. }
  destruct (pass_aggregation_returns env d (VStr ts) cpu network procs disk Hcpu Hdisk)
    as [overall Hov].
  rewrite Hov. discriminate.
Qed.

(** X6: a pass that raises leaves the stored overall status as it was:
    none on a new checker, the verdict of the earlier pass otherwise,
    which then stands next to the timestamp and the system information
    the failed pass has stored. *)
Theorem failed_pass_keeps_the_verdict (env : Provider) (r : Run) (e : exn) (r' : Run) :
  collect_all_metrics env r = (Raise e, r') ->
  dict_get (health_data (self r')) "overall_health"
  = dict_get (health_data (self r)) "overall_health" /\
  dict_get (health_data (self r')) "timestamp" = Some (VStr (timestamp (self r))) /\
  dict_get (health_data (self r')) "system" = Some (get_system_info env).
Proof. exact (failed_pass_data env r e r'). Qed.

Lemma failed_pass_keeps_the_verdict_witness :
  dict_get (health_data (self (snd (collect_all_metrics broken_host
                                      (snd (collect_all_metrics web_host (fresh noon)))))))
    "overall_health"
  = dict_get (health_data (self (snd (collect_all_metrics web_host (fresh noon)))))
      "overall_health" /\
  dict_get (health_data (self (snd (collect_all_metrics broken_host
                                      (snd (collect_all_metrics web_host (fresh noon)))))))
    "timestamp"
  = Some (VStr (timestamp (self (snd (collect_all_metrics web_host (fresh noon)))))) /\
  dict_get (health_data (self (snd (collect_all_metrics broken_host
                                      (snd (collect_all_metrics web_host (fresh noon)))))))
    "system"
  = Some (get_system_info broken_host).
Proof.
  apply (failed_pass_keeps_the_verdict broken_host
           (snd (collect_all_metrics web_host (fresh noon))) OSError).
  vm_compute. reflexivity.
Defined.

(** X7: a second pass of the same checker stores the timestamp of the
    first, which is the instant the checker was built, not the instant of
    the pass; everything else is measured anew: the health data are those
    a new checker built at that same instant would collect, with nothing
    left of the first pass. *)
Theorem second_pass_keeps_the_timestamp
    (env1 env2 : Provider) (r : Run) (hd1 hd2 : dict) (r1 r2 : Run) :
  in_order (health_data (self r)) ->
  collect_all_metrics env1 r = (Ok hd1, r1) ->
  collect_all_metrics env2 r1 = (Ok hd2, r2) ->
  dict_get hd2 "timestamp" = Some (VStr (timestamp (self r))) /\
  dict_get hd2 "timestamp" = dict_get hd1 "timestamp" /\
  keys hd2 = export_order /\
  fst (collect_all_metrics env2 (fresh (timestamp (self r)))) = Ok hd2.
Proof.
  intros Hord H1 H2.
  destruct (collect_returns env1 r hd1 r1 Hord H1)
    as (cpu1 & disk1 & net1 & procs1 & ov1 & _ & _ & _ & _ & _ & Hhd1 & Hself1).
  assert (Hord1 : in_order (health_data (self r1))).
  { rewrite Hself1, Hhd1. now exists 8. }
  destruct (collect_returns env2 r1 hd2 r2 Hord1 H2)
    as (cpu2 & disk2 & net2 & procs2 & ov2
        & Hcpu & Hdisk & Hnet & Hprocs & Hov & Hhd2 & _).
  assert (Hts : timestamp (self r1) = timestamp (self r)) by now rewrite Hself1.
  rewrite Hts in Hhd2.
  split; [rewrite Hhd2; reflexivity|].
  split; [rewrite Hhd2, Hhd1; reflexivity|].
  split; [rewrite Hhd2; reflexivity|].
  unfold fresh, init. rewrite collect_all_metrics_run. cbv zeta.
  rewrite Hcpu, Hdisk, Hnet, Hprocs.
  cbn [dict_set String.eqb Ascii.eqb Bool.eqb].
  assert (Hagg : get_overall_health
                   [ ("timestamp", VStr (timestamp (self r)));
                     ("system", get_system_info env2); ("cpu", cpu2);
                     ("memory", get_memory_info env2); ("disk", VList disk2);
                     ("network", net2); ("processes", procs2) ]
                 = Ok ov2).
  { rewrite <- Hov, Hhd2. apply get_overall_health_ext; reflexivity. }
  rewrite Hagg. cbn [fst dict_set String.eqb Ascii.eqb Bool.eqb]. now rewrite Hhd2.
Qed.

Lemma second_pass_keeps_the_timestamp_witness :
  dict_get (collected (other_host 70 50 [(part "/dev/sda1" "/", Ok (usage_at 40))]) noon)
    "timestamp"
  = Some (VStr (timestamp (self (fresh noon)))) /\
  dict_get (collected (other_host 70 50 [(part "/dev/sda1" "/", Ok (usage_at 40))]) noon)
    "timestamp"
  = dict_get (collected web_host noon) "timestamp" /\
  keys (collected (other_host 70 50 [(part "/dev/sda1" "/", Ok (usage_at 40))]) noon)
  = export_order /\
  fst (collect_all_metrics (other_host 70 50 [(part "/dev/sda1" "/", Ok (usage_at 40))])
         (fresh (timestamp (self (fresh noon)))))
  = Ok (collected (other_host 70 50 [(part "/dev/sda1" "/", Ok (usage_at 40))]) noon).
Proof.
  apply (second_pass_keeps_the_timestamp web_host
           (other_host 70 50 [(part "/dev/sda1" "/", Ok (usage_at 40))])
           (fresh noon)
           (collected web_host noon)
           (collected (other_host 70 50 [(part "/dev/sda1" "/", Ok (usage_at 40))]) noon)
           (snd (collect_all_metrics web_host (fresh noon)))
           (snd (collect_all_metrics
                   (other_host 70 50 [(part "/dev/sda1" "/", Ok (usage_at 40))])
                   (snd (collect_all_metrics web_host (fresh noon)))))).
  - exact in_order_nil.
  - vm_compute. reflexivity.
  - vm_compute. reflexivity.
Defined.

(** ** The process table *)

Lemma insert_desc_perm (p : procinfo) (l : list procinfo) :
  Permutation (insert_desc p l) (p :: l).
Proof.
  induction l as [|q l IH]; [apply Permutation_refl|]. cbn.
  destruct (Qltb (sort_key p) (sort_key q)); [|apply Permutation_refl].
  apply perm_trans with (q :: p :: l); [now apply perm_skip | apply perm_swap].
Qed.

Lemma sorted_desc_perm (l : list procinfo) : Permutation (sorted_desc l) l.
Proof.
  induction l as [|p l IH]; [apply Permutation_refl|].
  unfold sorted_desc in *. cbn.
  apply perm_trans with (p :: fold_right insert_desc [] l);
    [apply insert_desc_perm | now apply perm_skip].
Qed.

Lemma insert_desc_sorted (p : procinfo) (l : list procinfo) :
  StronglySorted before_by_cpu l -> StronglySorted before_by_cpu (insert_desc p l).
Proof.
  induction l as [|q l IH]; intro Hs; cbn.
  - constructor; constructor.
  - apply StronglySorted_inv in Hs as [Hl Hq].
    destruct (Qltb (sort_key p) (sort_key q)) eqn:E.
    + apply Qltb_lt in E. constructor; [now apply IH|].
      apply (Permutation_Forall (Permutation_sym (insert_desc_perm p l))).
      constructor; [unfold before_by_cpu; now apply Qlt_le_weak | exact Hq].
    + apply Qltb_ge in E. constructor; [now constructor|].
      constructor; [exact E|].
      eapply Forall_impl; [|exact Hq].
      intros x Hx. unfold before_by_cpu in *. now apply Qle_trans with (sort_key q).
Qed.

Lemma sorted_desc_sorted (l : list procinfo) :
  StronglySorted before_by_cpu (sorted_desc l).
Proof.
  induction l as [|p l IH]; [constructor|].
  unfold sorted_desc in *. cbn. now apply insert_desc_sorted.
Qed.

Lemma sorted_app_inv {A : Type} (R : A -> A -> Prop) (l1 l2 : list A) :
  StronglySorted R (l1 ++ l2) ->
  StronglySorted R l1 /\ forall a b, In a l1 -> In b l2 -> R a b.
Proof.
  induction l1 as [|x l1 IH]; cbn; intro Hs.
  - split; [constructor | intros a b []].
  - apply StronglySorted_inv in Hs as [Hs Hx].
    destruct (IH Hs) as [Hs1 Hcross]. split.
    + constructor; [exact Hs1|].
      apply Forall_forall. intros y Hy.
      apply (proj1 (Forall_forall _ _) Hx). apply in_or_app. now left.
    + intros a b [<-|Ha] Hb.
      * apply (proj1 (Forall_forall _ _) Hx). apply in_or_app. now right.
      * now apply Hcross.
Qed.

(** X8: the processes kept for the report are the five greatest cpu
    consumers (all of them when there are fewer), a missing cpu share
    counting as 0: kept and dropped processes together are the process
    table, the kept ones are in decreasing order of cpu, and no dropped
    process has a greater cpu share than a kept one. *)
Theorem retained_are_the_greatest (env : Provider) :
  Permutation (retained env ++ left_out env) (process_iter env) /\
  List.length (retained env) = Nat.min 5 (List.length (process_iter env)) /\
  StronglySorted before_by_cpu (retained env) /\
  (forall p q, In p (retained env) -> In q (left_out env) ->
               (sort_key q <= sort_key p)%Q).
Proof.
  unfold retained, left_out.
  pose proof (sorted_desc_sorted (process_iter env)) as Hs.
  rewrite <- (firstn_skipn 5 (sorted_desc (process_iter env))) in Hs.
  apply sorted_app_inv in Hs as [Hs1 Hcross].
  split; [rewrite firstn_skipn; apply sorted_desc_perm|].
  split; [now rewrite length_firstn, sorted_desc_length|].
  split; [exact Hs1 | exact Hcross].
Qed.

Lemma insert_desc_filter (c : Q) (p : procinfo) (l : list procinfo) :
  filter (has_key c) (insert_desc p l)
  = if has_key c p then p :: filter (has_key c) l else filter (has_key c) l.
Proof.
  induction l as [|q l IH]; [reflexivity|]. cbn [insert_desc].
  destruct (Qltb (sort_key p) (sort_key q)) eqn:E; [|reflexivity].
  cbn [filter]. rewrite IH.
  destruct (has_key c p) eqn:Hp; [|reflexivity].
  destruct (has_key c q) eqn:Hq; [|reflexivity].
  exfalso. unfold has_key in Hp, Hq.
  apply Qeq_bool_iff in Hp, Hq. apply Qltb_lt in E.
  rewrite Hp, Hq in E. exact (Qlt_irrefl _ E).
Qed.

(** X9: the sort is stable: processes with the same cpu share keep the
    order in which the process table lists them. In particular, when all
    shares are equal or missing, the first five of the table are kept. *)
Theorem equal_cpu_keeps_table_order (l : list procinfo) (c : Q) :
  filter (has_key c) (sorted_desc l) = filter (has_key c) l.
Proof.
  induction l as [|p l IH]; [reflexivity|].
  change (sorted_desc (p :: l)) with (insert_desc p (sorted_desc l)).
  rewrite insert_desc_filter, IH. reflexivity.
Qed.

Lemma mapM_process_entry_ok (l : list procinfo) :
  (forall p, In p l -> memory_percent p <> None) ->
  exists vs, mapM process_entry l = Ok vs.
Proof.
  induction l as [|p l IH]; intro H; [now exists []|].
  destruct IH as [vs Hvs]; [intros x Hx; apply H; now right|].
  cbn [mapM]. unfold process_entry at 1.
  destruct (memory_percent p) eqn:E; [|exfalso; now apply (H p (or_introl eq_refl))].
  cbn [bind]. rewrite Hvs. cbn [bind]. eexists. reflexivity.
Qed.

Lemma mapM_process_entry_raises (l : list procinfo) (e : exn) :
  mapM process_entry l = Raise e ->
  e = TypeError /\ exists p, In p l /\ memory_percent p = None.
Proof.
  induction l as [|p l IH]; cbn [mapM]; [discriminate|].
  unfold process_entry at 1. destruct (memory_percent p) eqn:E; cbn [bind].
  - destruct (mapM process_entry l) as [vs|e']; cbn [bind]; [discriminate|].
    intros [= ->]. destruct (IH eq_refl) as [He (x & Hx & Hn)].
    split; [exact He|]. exists x. split; [now right | exact Hn].
  - intros [= <-]. split; [reflexivity|]. exists p. split; [now left | exact E].
Qed.

(** X10: [get_process_info] raises exactly when one of the retained
    processes has no memory share (psutil could not read it), and the
    exception is then a [TypeError], which the [except] clause of the
    loop does not catch. A process that is left out never matters. *)
Theorem unread_memory_share_raises (env : Provider) :
  (get_process_info env = Raise TypeError <->
   exists p, In p (retained env) /\ memory_percent p = None) /\
  (forall e, get_process_info env = Raise e -> e = TypeError) /\
  ((forall p, In p (retained env) -> memory_percent p <> None) ->
   exists top,
     get_process_info env
     = Ok (VDict [ ("total_processes", VInt (Z.of_nat (List.length (pids env))));
                   ("top_cpu_processes", VList top) ]) /\
     List.length top = Nat.min 5 (List.length (process_iter env)) /\
     mapM (fun v => subscript v "pid") top
     = Ok (map (fun p => VInt (pid p)) (retained env))).
Proof.
  unfold get_process_info. fold (retained env).
  split; [|split].
  - split.
    + destruct (mapM process_entry (retained env)) as [vs|e] eqn:E; cbn [bind];
        [discriminate|].
      intros _. now apply (mapM_process_entry_raises _ e).
    + intros (p & Hp & Hn).
      destruct (mapM process_entry (retained env)) as [vs|e] eqn:E; cbn [bind].
      * exfalso. clear - E Hp Hn. revert vs E.
        induction (retained env) as [|x l IH]; intros vs E; [destruct Hp|].
        cbn [mapM] in E. unfold process_entry at 1 in E.
        destruct Hp as [->|Hp].
        -- rewrite Hn in E. discriminate E.
        -- destruct (memory_percent x); [|discriminate E]. cbn [bind] in E.
           destruct (mapM process_entry l) as [vs'|e']; [|discriminate E].
           now apply (IH Hp vs').
      * now destruct (mapM_process_entry_raises _ e E) as [-> _].
  - intros e.
    destruct (mapM process_entry (retained env)) as [vs|e'] eqn:E; cbn [bind];
      [discriminate|].
    intros [= <-]. now destruct (mapM_process_entry_raises _ e' E) as [-> _].
  - intro Hall. destruct (mapM_process_entry_ok _ Hall) as [vs Hvs].
    rewrite Hvs. cbn [bind]. exists vs. split; [reflexivity|].
    split.
    + rewrite (mapM_length _ _ _ Hvs). unfold retained.
      now rewrite length_firstn, sorted_desc_length.
    + clear Hall. revert vs Hvs.
      induction (retained env) as [|x l IH]; intros vs Hvs.
      * cbn in Hvs. now injection Hvs as <-.
      * cbn [mapM] in Hvs. unfold process_entry at 1 in Hvs.
        destruct (memory_percent x); [|discriminate Hvs]. cbn [bind] in Hvs.
        destruct (mapM process_entry l) as [vs'|e'] eqn:E; [|discriminate Hvs].
        cbn [bind] in Hvs. injection Hvs as <-.
        cbn [mapM map]. cbn [subscript dict_get String.eqb Ascii.eqb Bool.eqb bind].
        now rewrite (IH vs' eq_refl).
Qed.

(** ** The disk, cpu and memory collectors *)

Lemma disk_loop_raises (before after : list (sdiskpart * result sdiskusage))
    (p : sdiskpart) (e : exn) :
  e <> PermissionError ->
  (forall q x, In (q, Raise x) before -> x = PermissionError) ->
  forall acc, disk_loop (before ++ (p, Raise e) :: after) acc = Raise e.
Proof.
  intros Hne. induction before as [|[q [u|x]] before IH]; intros Hperm acc; cbn.
  - destruct e; try reflexivity. contradiction.
  - apply IH. intros q' x Hin. apply (Hperm q' x). now right.
  - rewrite (Hperm q x (or_introl eq_refl)).
    apply IH. intros q' x' Hin. apply (Hperm q' x'). now right.
Qed.

(** X11: a failure other than a permission failure is not skipped: the
    first partition whose usage read raises such an exception makes
    [get_disk_info] raise it, whatever the partitions after it; the
    entries built so far are lost, and a pass then raises the exception
    with the four fields timestamp, system, cpu and memory stored on a
    new checker. *)
Theorem other_disk_failure_raises
    (env : Provider) (before after : list (sdiskpart * result sdiskusage))
    (p : sdiskpart) (e : exn) (now : string) (cpu : value) :
  disk_partitions env = before ++ (p, Raise e) :: after ->
  e <> PermissionError ->
  (forall q x, In (q, Raise x) before -> x = PermissionError) ->
  get_cpu_info env = Ok cpu ->
  get_disk_info env = Raise e /\
  fst (collect_all_metrics env (fresh now)) = Raise e /\
  keys (health_data (self (snd (collect_all_metrics env (fresh now)))))
  = ["timestamp"; "system"; "cpu"; "memory"].
Proof.
  intros Hparts Hne Hperm Hcpu.
  assert (Hdisk : get_disk_info env = Raise e).
  { unfold get_disk_info. rewrite Hparts. now apply disk_loop_raises. }
  split; [exact Hdisk|].
  unfold fresh, init. rewrite collect_all_metrics_run. cbv zeta.
  rewrite Hcpu, Hdisk. split; reflexivity.
Qed.

Lemma other_disk_failure_raises_witness :
  get_disk_info broken_host = Raise OSError /\
  fst (collect_all_metrics broken_host (fresh noon)) = Raise OSError /\
  keys (health_data (self (snd (collect_all_metrics broken_host (fresh noon)))))
  = ["timestamp"; "system"; "cpu"; "memory"].
Proof.
  refine (other_disk_failure_raises broken_host
            [(part "/dev/sda1" "/", Ok (usage_at 40))]
            [(part "/dev/sdc1" "/data", Ok (usage_at 90))]
            (part "/dev/sdb1" "/gone") OSError noon _ _ _ _ _).
  - reflexivity.
  - discriminate.
  - intros q x [H|[]]. discriminate H.
  - vm_compute. reflexivity.
Defined.

Lemma readable_and_failed (parts : list (sdiskpart * result sdiskusage)) :
  List.length (readable parts) + List.length (filter failed parts) = List.length parts.
Proof.
  induction parts as [|[p [u|e]] parts IH]; cbn; [reflexivity| |]; lia.
Qed.

(** X12: when permission failures are the only failures, however many,
    [get_disk_info] returns the entries of the readable partitions in the
    order of the partition list: as many entries as partitions less the
    failures, an empty list when every partition fails. *)
Theorem permission_failures_are_skipped (env : Provider) :
  (forall p e, In (p, Raise e) (disk_partitions env) -> e = PermissionError) ->
  get_disk_info env = Ok (map entry_of (readable (disk_partitions env))) /\
  List.length (map entry_of (readable (disk_partitions env)))
  = List.length (disk_partitions env)
    - List.length (filter failed (disk_partitions env)) /\
  mapM (fun d => subscript d "mountpoint") (map entry_of (readable (disk_partitions env)))
  = Ok (map (fun pu => VStr (mountpoint (fst pu))) (readable (disk_partitions env))).
Proof.
  intro Hperm. split; [|split].
  - unfold get_disk_info. now rewrite disk_loop_permission.
  - rewrite length_map.
    pose proof (readable_and_failed (disk_partitions env)). lia.
  - induction (readable (disk_partitions env)) as [|pu l IH]; [reflexivity|].
    cbn [map mapM]. unfold entry_of at 1, disk_entry.
    cbn [subscript dict_get String.eqb Ascii.eqb Bool.eqb bind].
    now rewrite IH.
Qed.

Lemma permission_failures_are_skipped_witness :
  get_disk_info
    (host 50 50 [ locked "/dev/sda1" "/a"; (part "/dev/sdb1" "/", Ok (usage_at 40));
                  locked "/dev/sdc1" "/c" ])
  = Ok (map entry_of
          (readable (disk_partitions
                       (host 50 50 [ locked "/dev/sda1" "/a";
                                     (part "/dev/sdb1" "/", Ok (usage_at 40));
                                     locked "/dev/sdc1" "/c" ])))) /\
  List.length
    (map entry_of
       (readable (disk_partitions
                    (host 50 50 [ locked "/dev/sda1" "/a";
                                  (part "/dev/sdb1" "/", Ok (usage_at 40));
                                  locked "/dev/sdc1" "/c" ]))))
  = List.length
      (disk_partitions
         (host 50 50 [ locked "/dev/sda1" "/a"; (part "/dev/sdb1" "/", Ok (usage_at 40));
                       locked "/dev/sdc1" "/c" ]))
    - List.length
        (filter failed
           (disk_partitions
              (host 50 50 [ locked "/dev/sda1" "/a";
                            (part "/dev/sdb1" "/", Ok (usage_at 40));
                            locked "/dev/sdc1" "/c" ]))) /\
  mapM (fun d => subscript d "mountpoint")
    (map entry_of
       (readable (disk_partitions
                    (host 50 50 [ locked "/dev/sda1" "/a";
                                  (part "/dev/sdb1" "/", Ok (usage_at 40));
                                  locked "/dev/sdc1" "/c" ]))))
  = Ok (map (fun pu => VStr (mountpoint (fst pu)))
          (readable (disk_partitions
                       (host 50 50 [ locked "/dev/sda1" "/a";
                                     (part "/dev/sdb1" "/", Ok (usage_at 40));
                                     locked "/dev/sdc1" "/c" ])))).
Proof.
  apply (permission_failures_are_skipped
           (host 50 50 [ locked "/dev/sda1" "/a"; (part "/dev/sdb1" "/", Ok (usage_at 40));
                         locked "/dev/sdc1" "/c" ])).
  intros p e [H|[H|[H|[]]]]; inversion H; reflexivity.
Defined.

(** X13: in the health data of a pass, the status of the memory block
    and of every disk entry is the classification of the percentage that
    stands in the same block, so a block never shows a status that
    contradicts its own percentage. *)
Theorem status_matches_own_percent (env : Provider) (r : Run) (hd : dict) (r' : Run) :
  in_order (health_data (self r)) ->
  collect_all_metrics env r = (Ok hd, r') ->
  (exists memory q,
     dict_get hd "memory" = Some memory /\
     subscript memory "percent_used" = Ok (VFloat q) /\
     subscript memory "status" = Ok (VStr (_get_status q))) /\
  (exists disk,
     dict_get hd "disk" = Some (VList disk) /\
     Forall (fun d => exists q,
                subscript d "percent_used" = Ok (VFloat q) /\
                subscript d "status" = Ok (VStr (_get_status q))) disk).
Proof.
  intros Hord H.
  destruct (collect_returns env r hd r' Hord H)
    as (cpu & disk & network & procs & overall & _ & Hdisk & _ & _ & _ & -> & _).
  pose proof (disk_loop_returns _ _ _ Hdisk) as Hd. cbn [app] in Hd. subst disk.
  split.
  - exists (get_memory_info env), (vm_percent (virtual_memory env)). repeat split.
  - eexists. split; [reflexivity|].
    apply Forall_forall. intros d Hin.
    apply in_map_iff in Hin as [pu [<- _]].
    exists (du_percent (snd pu)). split; reflexivity.
Qed.

Lemma status_matches_own_percent_witness :
  (exists memory q,
     dict_get (collected web_host noon) "memory" = Some memory /\
     subscript memory "percent_used" = Ok (VFloat q) /\
     subscript memory "status" = Ok (VStr (_get_status q))) /\
  (exists disk,
     dict_get (collected web_host noon) "disk" = Some (VList disk) /\
     Forall (fun d => exists q,
                subscript d "percent_used" = Ok (VFloat q) /\
                subscript d "status" = Ok (VStr (_get_status q))) disk).
Proof.
  apply (status_matches_own_percent web_host (fresh noon) (collected web_host noon)
           (snd (collect_all_metrics web_host (fresh noon)))).
  - exact in_order_nil.
  - vm_compute. reflexivity.
Defined.

(** X14: the cpu block is different: its status classifies a third
    sample of the cpu load, taken after the one stored as
    cpu_percent_total, so the two are independent: for every pair of
    samples there is a block that shows the one as the total and the
    classification of the other as the status. *)
Theorem cpu_status_is_another_sample (env : Provider) (cpu : value) (total sample : Q) :
  get_cpu_info env = Ok cpu ->
  subscript cpu "status" = Ok (VStr (_get_status (cpu_percent_status env))) /\
  subscript cpu "cpu_percent_total" = Ok (VFloat (cpu_percent_total env)) /\
  exists other,
    get_cpu_info (with_cpu_samples env total sample) = Ok other /\
    subscript other "cpu_percent_total" = Ok (VFloat total) /\
    subscript other "status" = Ok (VStr (_get_status sample)).
Proof.
  unfold get_cpu_info, cpu_freq_entry. cbn [with_cpu_samples cpu_freq_tested cpu_freq_read
    cpu_count_physical cpu_count_logical cpu_percent_total cpu_percent_percpu
    cpu_percent_status].
  destruct (cpu_freq_tested env); [destruct (cpu_freq_read env); [|discriminate]|];
    cbn [bind]; intros [= <-]; (split; [reflexivity|]); (split; [reflexivity|]);
    eexists; repeat split.
Qed.

Lemma cpu_status_is_another_sample_witness :
  exists cpu,
    get_cpu_info web_host = Ok cpu /\
    subscript cpu "status" = Ok (VStr (_get_status (cpu_percent_status web_host))) /\
    subscript cpu "cpu_percent_total" = Ok (VFloat (cpu_percent_total web_host)) /\
    exists other,
      get_cpu_info (with_cpu_samples web_host 10 95) = Ok other /\
      subscript other "cpu_percent_total" = Ok (VFloat 10) /\
      subscript other "status" = Ok (VStr (_get_status 95)).
Proof.
  eexists. split; [reflexivity|].
  apply (cpu_status_is_another_sample web_host _ 10 95). reflexivity.
Defined.

(** ** Statuses the aggregation does not know *)

Lemma str_in_strings (s : string) (l : list string) :
  str_in s (map VStr l) = existsb (String.eqb s) l.
Proof.
  induction l as [|t l IH]; [reflexivity|]. cbn. now rewrite <- IH.
Qed.

Lemma disk_statuses_status_only (c m : string) (ds : list string) :
  disk_statuses (status_only c m ds) = Ok (map VStr ds).
Proof.
  unfold disk_statuses, status_only.
  cbn [subscript dict_get String.eqb Ascii.eqb Bool.eqb bind iterate].
  induction ds as [|d ds IH]; [reflexivity|].
  cbn [map mapM subscript dict_get String.eqb Ascii.eqb Bool.eqb bind].
  now rewrite IH.
Qed.

Lemma existsb_alarming (ds : list string) :
  existsb alarming ds
  = existsb (String.eqb "CRITICAL") ds || existsb (String.eqb "WARNING") ds.
Proof.
  induction ds as [|d ds IH]; [reflexivity|].
  cbn [existsb]. rewrite IH. unfold alarming.
  destruct (String.eqb "CRITICAL" d), (String.eqb "WARNING" d),
    (existsb (String.eqb "CRITICAL") ds), (existsb (String.eqb "WARNING") ds);
    reflexivity.
Qed.

(** X15: the aggregation compares statuses with the two exact strings
    "CRITICAL" and "WARNING" and takes every other string for healthy: on
    health data whose cpu, memory and partition statuses are none of the
    two (an unknown word, another spelling or case), it returns
    "HEALTHY" and raises nothing. *)
Theorem unknown_statuses_count_as_healthy (c m : string) (ds : list string) :
  alarming c = false ->
  alarming m = false ->
  existsb alarming ds = false ->
  get_overall_health (status_only c m ds) = Ok "HEALTHY".
Proof.
  intros Hc Hm Hds. unfold alarming in Hc, Hm.
  apply orb_false_iff in Hc as [Hc1 Hc2]. apply orb_false_iff in Hm as [Hm1 Hm2].
  rewrite existsb_alarming in Hds. apply orb_false_iff in Hds as [Hd1 Hd2].
  rewrite (get_overall_health_reads (status_only c m ds) (VStr c) (VStr m) (map VStr ds)
             eq_refl eq_refl (disk_statuses_status_only c m ds)).
  cbv zeta. unfold worst_disk_status.
  rewrite (str_in_strings "CRITICAL" ds), (str_in_strings "WARNING" ds), Hd1, Hd2.
  cbn [str_in existsb]. rewrite Hc1, Hc2, Hm1, Hm2. reflexivity.
Qed.

Lemma unknown_statuses_count_as_healthy_witness :
  get_overall_health (status_only "critical" "UNKNOWN" ["Warning"; "FAILED"]) = Ok "HEALTHY".
Proof.
  apply unknown_statuses_count_as_healthy; reflexivity.
Defined.

(** ** The report of a checker without a complete pass *)

Section PartialReport.

Variable float_repr : Q -> string.
Variable container_repr : value -> string.
Variable title : string -> string.

Lemma print_heading_stops (data : dict) (stamp : value) (r : Run) :
  dict_get data "timestamp" = Some stamp ->
  dict_get data "overall_health" = None ->
  print_heading float_repr container_repr data r
  = (Raise (KeyError "overall_health"),
     emit [ equals_rule;
            ("SYSTEM HEALTH REPORT - " ++ str float_repr container_repr stamp)%string;
            equals_rule ] r).
Proof.
  intros Hs Ho. unfold print_heading, field, subscript. rewrite Hs, Ho.
  rewrite print_bind, lift_bind, print_bind, print_bind, lift_bind, !emit_emit.
  reflexivity.
Qed.

(** X16: the report needs the data of a complete pass. On a checker that
    has collected nothing it raises the [KeyError] of "timestamp" after
    its first rule; after a pass that raised on a new checker it prints
    the rule, the title with the timestamp and the rule again, and then
    raises the [KeyError] of "overall_health": a partial report of three
    lines, with none of the measurements the failed pass has stored. *)
Theorem report_needs_a_complete_pass
    (env : Provider) (now : string) (e : exn) (r' : Run) :
  collect_all_metrics env (fresh now) = (Raise e, r') ->
  print_report float_repr container_repr title r'
  = (Raise (KeyError "overall_health"),
     emit [ equals_rule; ("SYSTEM HEALTH REPORT - " ++ now)%string; equals_rule ] r') /\
  print_report float_repr container_repr title (fresh now)
  = (Raise (KeyError "timestamp"), emit [equals_rule] (fresh now)).
Proof.
  intro H. split; [|reflexivity].
  destruct (failed_pass_data env (fresh now) e r' H) as (Hov & Hts & _).
  cbn [fresh init self health_data timestamp dict_get] in Hov, Hts.
  unfold print_report. unfold bindM at 1. unfold load.
  apply bindM_raise.
  exact (print_heading_stops (health_data (self r')) (VStr now) r' Hts Hov).
Qed.

End PartialReport.

Lemma report_needs_a_complete_pass_witness :
  print_report two_places no_container no_title
    (snd (collect_all_metrics broken_host (fresh noon)))
  = (Raise (KeyError "overall_health"),
     emit [ equals_rule; ("SYSTEM HEALTH REPORT - " ++ noon)%string; equals_rule ]
       (snd (collect_all_metrics broken_host (fresh noon)))) /\
  print_report two_places no_container no_title (fresh noon)
  = (Raise (KeyError "timestamp"), emit [equals_rule] (fresh noon)).
Proof.
  apply (report_needs_a_complete_pass two_places no_container no_title
           broken_host noon OSError).
  vm_compute. reflexivity.
Defined.
